(** * Token lifecycle of the Google Drive tools

    A shallow embedding of [agent_ready_tools/clients/auth_manager.py]
    (classes [AuthManager], [GoogleAuthManager], [HubSpotAuthManager]), of
    [GoogleClient] from [agent_ready_tools/clients/google_client.py] (the
    retry loop [_request_with_reauth] and the request methods built on it)
    and of the credential helpers of [agent_ready_tools/utils/credentials.py].

    Python objects are records, dictionaries are finite maps, and every
    method is a computation in a state-and-exception monad whose state is
    the receiver object paired with the outside world (working directory,
    file system, HTTP endpoints). *)

From Stdlib Require Import ZArith String List Bool Lia.
From stdpp Require Import base option gmap strings.
From Stdlib Require Import Ascii.

Local Open Scope string_scope.
Local Open Scope Z_scope.
Local Open Scope list_scope.

(** ** Python values and dictionaries *)

(** [Dict[str, Optional[str]]]: a JSON object whose values are strings or
    [null]. *)
Abbreviation dict := (gmap string (option string)).

(** Python's [str(v)] on an [Optional[str]]. *)
Definition py_str (v : option string) : string :=
  match v with
  | Some s => s
  | None => "None"
  end.

(** Truth value of an [Optional[str]]: [None] and the empty string are
    false. *)
Definition truthy (v : option string) : bool :=
  match v with
  | Some EmptyString => false
  | Some _ => true
  | None => false
  end.

(** [d.get(key)] *)
Definition dict_get (d : dict) (key : string) : option string :=
  match d !! key with
  | Some v => v
  | None => None
  end.

(** [d.get(key, default)] *)
Definition dict_get_default (d : dict) (key : string) (default : option string)
  : option string :=
  match d !! key with
  | Some v => v
  | None => default
  end.

(** [needle in hay] on strings. *)
Fixpoint str_contains (needle hay : string) : bool :=
  if String.prefix needle hay then true
  else match hay with
       | EmptyString => false
       | String _ rest => str_contains needle rest
       end.

(** ** Exceptions and the method monad *)

Inductive exn : Type :=
| AttributeError (attr : string)
| KeyError (key : string)
| HTTPError (status : Z)
| JSONDecodeError
| OSError
| UnboundLocalError (name : string).

(** [except OSError] catches only [OSError]; [except Exception] catches
    every exception modelled here. *)
Definition is_OSError (e : exn) : bool :=
  match e with
  | OSError => true
  | _ => false
  end.

Definition is_Exception (e : exn) : bool := true.

Inductive result (A : Type) : Type :=
| Ok (a : A)
| Raise (e : exn).
Arguments Ok {A} a.
Arguments Raise {A} e.

Definition M (S A : Type) : Type := S -> result A * S.

Definition ret {S A} (a : A) : M S A := fun s => (Ok a, s).

Definition bind {S A B} (m : M S A) (k : A -> M S B) : M S B :=
  fun s =>
    match m s with
    | (Ok a, s') => k a s'
    | (Raise e, s') => (Raise e, s')
    end.

Definition raise {S A} (e : exn) : M S A := fun s => (Raise e, s).

Definition gets {S A} (f : S -> A) : M S A := fun s => (Ok (f s), s).

Definition modify {S} (f : S -> S) : M S unit := fun s => (Ok tt, f s).

(** [try: m  except <class>: h] *)
Definition try_except {S A} (m : M S A) (catches : exn -> bool) (h : exn -> M S A)
  : M S A :=
  fun s =>
    match m s with
    | (Raise e, s') => if catches e then h e s' else (Raise e, s')
    | r => r
    end.

(** Run a method of an inner object inside a method of the object that
    holds it. *)
Definition zoom {S T A} (get : S -> T) (set : T -> S -> S) (m : M T A) : M S A :=
  fun s =>
    let (r, t') := m (get s) in (r, set t' s).

Notation "'let*' x ':=' m 'in' k" := (bind m (fun x => k))
  (at level 10, x name, m at level 100, k at level 200).
Notation "m ';;' k" := (bind m (fun _ => k))
  (at level 100, k at level 200, right associativity).

(** ** The outside world *)

(** What [requests] hands back: the status code, the result of
    [response.json()] and the body text.  [json] is [Some d] for a body
    that is a JSON object and [None] for a body that is not JSON at all,
    in which case [response.json()] raises.  A body that is JSON but not
    an object (a list, a string, a number, [null]) has no counterpart
    here: the source annotates the parsed body as
    [Dict[str, Optional[str]]] and [Dict[str, Any]], and the model takes
    its inputs from these types. *)
Record Response : Type := mkResponse {
  status_code : Z;
  json : option dict;
  text : string
}.

(** Body of a token request: the generic manager posts a formatted string,
    the vendor managers post a dictionary. *)
Inductive form : Type :=
| RawBody (body : string)
| FormDict (fields : gmap string string).

Record TokenRequest : Type := mkTokenRequest {
  tr_url : string;
  tr_auth : option (string * string);
  tr_headers : gmap string string;
  tr_data : form
}.

(** The [payload] argument of [_request_with_reauth]. *)
Inductive payload : Type :=
| PayloadNone
| PayloadBytes (b : string)
| PayloadDict (d : gmap string string).

Record ApiRequest : Type := mkApiRequest {
  ar_method : string;
  ar_url : string;
  ar_params : option (gmap string string);
  ar_headers : gmap string string;
  ar_data : payload;
  ar_json : payload
}.

(** Observable events, oldest first.  [EvRefreshCall] marks the entry of a
    [refresh_bearer_token] call. *)
Inductive Event : Type :=
| EvRefreshCall
| EvTokenPost (q : TokenRequest) (r : Response)
| EvApi (q : ApiRequest) (r : Response).

(** How a file operation can go wrong.  [FailStat]: the path cannot even
    be examined ([stat] raises an [OSError] other than the ones
    [Path.is_file] swallows, such as [EACCES] or [ENAMETOOLONG]), so
    [is_file()] raises and so does any attempt to open the file.
    [FailBeforeOpen]: the path can be examined but [mkdir] or [open]
    raises.  [FailAfterTruncate]: the write raises after [open] has
    truncated the file. *)
Inductive fs_fault : Type :=
| NoFault
| FailBeforeOpen
| FailAfterTruncate
| FailStat.

Record World : Type := mkWorld {
  cwd : string;
  (** probe of [creds_path.parent]: [is_dir() and os.access(.., W_OK)];
      [None] when the probe raises [OSError]; keyed by the file's path *)
  parent_writable : string -> option bool;
  (** files by path; [Some None] is a file whose content is not a JSON
      object *)
  files : gmap string (option dict);
  (** the fault, if any, that hits the n-th file operation *)
  fs_faults : nat -> fs_fault;
  fs_ops : nat;
  (** the endpoints: a reply for each request, given the events so far *)
  token_server : list Event -> TokenRequest -> Response;
  api_server : list Event -> ApiRequest -> Response;
  trace : list Event;
  stdout : list string
}.

Definition set_files (f : gmap string (option dict)) (w : World) : World :=
  mkWorld (cwd w) (parent_writable w) f (fs_faults w) (fs_ops w)
          (token_server w) (api_server w) (trace w) (stdout w).

Definition set_fs_ops (n : nat) (w : World) : World :=
  mkWorld (cwd w) (parent_writable w) (files w) (fs_faults w) n
          (token_server w) (api_server w) (trace w) (stdout w).

Definition set_trace (t : list Event) (w : World) : World :=
  mkWorld (cwd w) (parent_writable w) (files w) (fs_faults w) (fs_ops w)
          (token_server w) (api_server w) t (stdout w).

Definition set_stdout (o : list string) (w : World) : World :=
  mkWorld (cwd w) (parent_writable w) (files w) (fs_faults w) (fs_ops w)
          (token_server w) (api_server w) (trace w) o.

(** ** World operations, for any receiver object [O] *)

Section WorldOps.
Context {O : Type}.

Definition on_world (f : World -> World) : M (O * World) unit :=
  modify (fun s => (fst s, f (snd s))).

(** [print(msg)] *)
Definition print (msg : string) : M (O * World) unit :=
  on_world (fun w => set_stdout (stdout w ++ [msg]) w).

Definition log_event (e : Event) : M (O * World) unit :=
  on_world (fun w => set_trace (trace w ++ [e]) w).

(** [os.getcwd()] *)
Definition os_getcwd : M (O * World) string := gets (fun s => cwd (snd s)).

(** [path.is_file()]: pathlib answers [False] for a missing file and
    re-raises every other [OSError] of [stat].  The probe looks at the
    fault of the file operation it guards without counting as one. *)
Definition is_file (path : string) : M (O * World) bool :=
  let* f := gets (fun s => fs_faults (snd s) (fs_ops (snd s))) in
  match f with
  | FailStat => raise OSError
  | _ => gets (fun s => bool_decide (is_Some (files (snd s) !! path)))
  end.

(** The fault of the next file operation; the operation is counted. *)
Definition next_fault : M (O * World) fs_fault :=
  let* f := gets (fun s => fs_faults (snd s) (fs_ops (snd s))) in
  on_world (fun w => set_fs_ops (S (fs_ops w)) w);;
  ret f.

(** [with open(path) as f: json.load(f)].  A content that is JSON but not
    an object makes the caller's [.get] raise inside the same [try] as a
    content that is not JSON; the handler catches both alike, so both are
    [Some None] here. *)
Definition read_json (path : string) : M (O * World) dict :=
  let* f := next_fault in
  match f with
  | NoFault =>
      let* content := gets (fun s => files (snd s) !! path) in
      match content with
      | Some (Some d) => ret d
      | Some None => raise JSONDecodeError
      | None => raise OSError
      end
  | _ => raise OSError
  end.

(** [path.parent.mkdir(parents=True, exist_ok=True)] followed by
    [with open(path, "w") as f: json.dump(creds, f)].  A fault before the
    file is opened leaves it as it was; a fault after [open] has
    truncated it leaves a file that is not JSON. *)
Definition write_json (path : string) (creds : dict) : M (O * World) unit :=
  let* f := next_fault in
  match f with
  | NoFault => on_world (fun w => set_files (<[path := Some creds]> (files w)) w)
  | FailStat => raise OSError
  | FailBeforeOpen => raise OSError
  | FailAfterTruncate =>
      on_world (fun w => set_files (<[path := None]> (files w)) w);;
      raise OSError
  end.

(** [response.raise_for_status()] of the requests library: an
    [HTTPError] exactly for the client and server error codes. *)
Definition raise_for_status (r : Response) : M (O * World) unit :=
  if (400 <=? status_code r) && (status_code r <? 600)
  then raise (HTTPError (status_code r))
  else ret tt.

(** [response.json()] *)
Definition response_json (r : Response) : M (O * World) dict :=
  match json r with
  | Some d => ret d
  | None => raise JSONDecodeError
  end.

(** [resp[key]] *)
Definition dict_getitem (d : dict) (key : string) : M (O * World) (option string) :=
  match d !! key with
  | Some v => ret v
  | None => raise (KeyError key)
  end.

(** [requests.post(...)] to the token endpoint *)
Definition requests_post (q : TokenRequest) : M (O * World) Response :=
  let* r := gets (fun s => token_server (snd s) (trace (snd s)) q) in
  log_event (EvTokenPost q r);;
  ret r.

(** [requests.request(...)] to the API *)
Definition requests_request (q : ApiRequest) : M (O * World) Response :=
  let* r := gets (fun s => api_server (snd s) (trace (snd s)) q) in
  log_event (EvApi q r);;
  ret r.
End WorldOps.

(** ** [class AuthManager] *)

(** The attributes that [__init__] assigns and that differ between
    instances.  [initial_bearer_token] and [initial_refresh_token] are not
    among them: their assignments are commented out in [__init__]. *)
Record AuthManager : Type := mkAuthManager {
  token_url : string;
  client_id : string;
  client_secret : string;
  _in_memory_bearer_token : option string;
  _in_memory_refresh_token : option string;
  creds_path : string;
  _can_write_to_cache : bool
}.

Definition set_bearer (v : option string) (a : AuthManager) : AuthManager :=
  mkAuthManager (token_url a) (client_id a) (client_secret a) v
                (_in_memory_refresh_token a) (creds_path a) (_can_write_to_cache a).

Definition set_refresh (v : option string) (a : AuthManager) : AuthManager :=
  mkAuthManager (token_url a) (client_id a) (client_secret a)
                (_in_memory_bearer_token a) v (creds_path a) (_can_write_to_cache a).

Definition set_can_write (b : bool) (a : AuthManager) : AuthManager :=
  mkAuthManager (token_url a) (client_id a) (client_secret a)
                (_in_memory_bearer_token a) (_in_memory_refresh_token a)
                (creds_path a) b.

(** Attributes that [__init__] sets to the same constant in every
    instance. *)
Definition bearer_token_resp_key : string := "access_token".
Definition refresh_token_resp_key : string := "refresh_token".
Definition pants_sandbox_substr : string := "pants-sandbox".
Definition headers : gmap string string :=
  {[ "Content-Type" := "application/x-www-form-urlencoded" ]}.

(** [self.request_data_template.format(refresh_token)] *)
Definition request_data_template_format (refresh_token : string) : string :=
  ("grant_type=refresh_token&refresh_token=" ++ refresh_token)%string.

(** [self.auth = HTTPBasicAuth(client_id, client_secret)] *)
Definition auth (a : AuthManager) : string * string := (client_id a, client_secret a).

Abbreviation AM := (M (AuthManager * World)).

Definition get_self : AM AuthManager := gets fst.

Definition modify_self (f : AuthManager -> AuthManager) : AM unit :=
  modify (fun s => (f (fst s), snd s)).

(** Reading an attribute that was never assigned. *)
Definition initial_bearer_token : AM string :=
  raise (AttributeError "initial_bearer_token").

Definition initial_refresh_token : AM string :=
  raise (AttributeError "initial_refresh_token").

(** [x or y] where [x] is an [Optional[str]] already computed and [y] is
    evaluated only when [x] is false. *)
Definition py_or (x : option string) (y : AM string) : AM string :=
  match x with
  | Some s => if truthy x then ret s else y
  | None => y
  end.

(** [s.split(sep)] for a separator of one character. *)
Fixpoint split_on (sep : ascii) (s : string) : list string :=
  match s with
  | EmptyString => [EmptyString]
  | String c rest =>
      if Ascii.eqb c sep then EmptyString :: split_on sep rest
      else match split_on sep rest with
           | part :: parts => String c part :: parts
           | [] => [String c EmptyString]
           end
  end.

(** ["/".join(parts)] *)
Fixpoint join_with (sep : ascii) (parts : list string) : string :=
  match parts with
  | [] => EmptyString
  | [part] => part
  | part :: rest => (part ++ String sep (join_with sep rest))%string
  end.

(** [sep not in s] *)
Definition free_of (sep : ascii) (s : string) : bool :=
  negb (str_contains (String sep EmptyString) s).

(** [str(Path("/shared-data/" + token_cache_file))]: pathlib splits the
    text at the slashes, drops the empty and the ["."] components, keeps
    [".."], and joins what is left under the root. *)
Definition shared_data_path (token_cache_file : string) : string :=
  String "/"
    (join_with "/"
       ("shared-data"
          :: filter (fun part => part <> "" /\ part <> ".")
                    (split_on "/" token_cache_file))).

Module AuthManager.

(** [AuthManager.__init__]: runs in the world alone and yields the new
    object. *)
Definition __init__ (token_url' client_id' client_secret'
                     initial_bearer_token' initial_refresh_token'
                     token_cache_file : string) (w : World)
  : AuthManager * World :=
  let path := shared_data_path token_cache_file in
  let self0 := mkAuthManager token_url' client_id' client_secret'
                 (Some initial_bearer_token') (Some initial_refresh_token')
                 path false in
  let probe : AM unit :=
    try_except
      (let* ok := gets (fun s => parent_writable (snd s) path) in
       match ok with
       | Some true => modify_self (set_can_write true)
       | Some false =>
           print "WARNING: Cache directory is not writable. Tokens will be stored in-memory only and will not persist across executions."
       | None => raise OSError
       end)
      is_OSError
      (fun _ => print "WARNING: Error checking cache directory writability. Tokens will be stored in-memory only.") in
  snd (probe (self0, w)).

(** [AuthManager._get_cred_from_server_cache] *)
Definition _get_cred_from_server_cache (key : string) : AM (option string) :=
  let* self := get_self in
  if decide (key = bearer_token_resp_key) then
    ret (_in_memory_bearer_token self)
  else if decide (key = refresh_token_resp_key) then
    ret (_in_memory_refresh_token self)
  else
    let* exists_ :=
      if _can_write_to_cache self then is_file (creds_path self) else ret false in
    if exists_ then
      try_except
        (let* d := read_json (creds_path self) in
         ret (dict_get d key))
        is_Exception
        (fun _ =>
           print "WARNING: Error reading from disk cache. Falling back to in-memory/initial tokens.";;
           ret None)
    else ret None.

(** [AuthManager._update_server_creds_cache] *)
Definition _update_server_creds_cache (creds : dict) : AM unit :=
  (match creds !! bearer_token_resp_key with
   | Some v => modify_self (set_bearer v)
   | None => ret tt
   end);;
  (match creds !! refresh_token_resp_key with
   | Some v => modify_self (set_refresh v)
   | None => ret tt
   end);;
  let* self := get_self in
  if _can_write_to_cache self then
    try_except
      (write_json (creds_path self) creds)
      is_Exception
      (fun _ => print "WARNING: Failed to write to disk cache. Tokens only stored in-memory.")
  else ret tt.

(** The dictionary comprehension of the generic refresh: for each of the
    two keys, in order, keep [str(resp[key])] when [resp.get(key)] is
    not [None]. *)
Fixpoint comprehension (resp : dict) (keys : list string) : dict :=
  match keys with
  | [] => ∅
  | key :: rest =>
      match dict_get resp key with
      | Some v => <[key := Some (py_str (Some v))]> (comprehension resp rest)
      | None => comprehension resp rest
      end
  end.

(** [AuthManager.refresh_bearer_token] *)
Definition refresh_bearer_token : AM unit :=
  log_event EvRefreshCall;;
  let* cwd := os_getcwd in
  if str_contains pants_sandbox_substr cwd then ret tt
  else
    let* cached := _get_cred_from_server_cache refresh_token_resp_key in
    let* refresh_token := py_or cached initial_refresh_token in
    let request_data := request_data_template_format refresh_token in
    let* self := get_self in
    let* response :=
      requests_post (mkTokenRequest (token_url self) (Some (auth self)) headers
                                    (RawBody request_data)) in
    raise_for_status response;;
    let* resp := response_json response in
    let tokens :=
      comprehension resp [bearer_token_resp_key; refresh_token_resp_key] in
    _update_server_creds_cache tokens.

(** [AuthManager.get_bearer_token] *)
Definition get_bearer_token : AM string :=
  let* self := get_self in
  py_or (_in_memory_bearer_token self)
    (let* from_srv := _get_cred_from_server_cache bearer_token_resp_key in
     py_or from_srv initial_bearer_token).

End AuthManager.

(** The form posted by the vendor managers. *)
Definition vendor_payload (self : AuthManager) (refresh_token : string)
  : gmap string string :=
  <["client_secret" := client_secret self]>
    (<["client_id" := client_id self]>
       (<["refresh_token" := refresh_token]>
          {[ "grant_type" := "refresh_token" ]})).

(** ** [class GoogleAuthManager(AuthManager)] *)

Module GoogleAuthManager.

Definition __init__ (token_url' client_id' client_secret'
                     initial_bearer_token' initial_refresh_token' : string)
  : World -> AuthManager * World :=
  let token_cache_file := "google_auth.json" in
  AuthManager.__init__ token_url' client_id' client_secret'
    initial_bearer_token' initial_refresh_token' token_cache_file.

(** [GoogleAuthManager.refresh_bearer_token] *)
Definition refresh_bearer_token : AM unit :=
  log_event EvRefreshCall;;
  let* cwd := os_getcwd in
  if str_contains pants_sandbox_substr cwd then ret tt
  else
    let* cached :=
      AuthManager._get_cred_from_server_cache refresh_token_resp_key in
    let* refresh_token := py_or cached initial_refresh_token in
    let* self := get_self in
    let payload := vendor_payload self refresh_token in
    let* response :=
      requests_post (mkTokenRequest (token_url self) None headers
                                    (FormDict payload)) in
    raise_for_status response;;
    let* resp := response_json response in
    let* access := dict_getitem resp bearer_token_resp_key in
    let new_access_token := py_str access in
    let new_refresh_token :=
      dict_get_default resp refresh_token_resp_key (Some refresh_token) in
    let tokens : dict :=
      <[refresh_token_resp_key := new_refresh_token]>
        {[ bearer_token_resp_key := Some new_access_token ]} in
    AuthManager._update_server_creds_cache tokens.

End GoogleAuthManager.

(** ** [class HubSpotAuthManager(AuthManager)] *)

Module HubSpotAuthManager.

Definition __init__ (token_url' client_id' client_secret'
                     initial_bearer_token' initial_refresh_token' : string)
  : World -> AuthManager * World :=
  let token_cache_file := "hubspot_auth.json" in
  AuthManager.__init__ token_url' client_id' client_secret'
    initial_bearer_token' initial_refresh_token' token_cache_file.

(** [HubSpotAuthManager.refresh_bearer_token] *)
Definition refresh_bearer_token : AM unit :=
  log_event EvRefreshCall;;
  let* cwd := os_getcwd in
  if str_contains pants_sandbox_substr cwd then ret tt
  else
    let* cached :=
      AuthManager._get_cred_from_server_cache refresh_token_resp_key in
    let* refresh_token := py_or cached initial_refresh_token in
    let* self := get_self in
    let payload := vendor_payload self refresh_token in
    let* response :=
      requests_post (mkTokenRequest (token_url self) None headers
                                    (FormDict payload)) in
    raise_for_status response;;
    let* resp := response_json response in
    let* access := dict_getitem resp bearer_token_resp_key in
    let tokens : dict :=
      <[bearer_token_resp_key := Some (py_str access)]>
        {[ refresh_token_resp_key := Some refresh_token ]} in
    AuthManager._update_server_creds_cache tokens.

End HubSpotAuthManager.

(** ** [class GoogleClient] *)

Record GoogleClient : Type := mkGoogleClient {
  base_url : string;
  auth_manager : AuthManager;
  client_headers : gmap string string
}.

Abbreviation CM := (M (GoogleClient * World)).

Definition with_auth_manager (a : AuthManager) (c : GoogleClient) : GoogleClient :=
  mkGoogleClient (base_url c) a (client_headers c).

(** The client after [self.headers["Authorization"] = value]. *)
Definition with_authorization (value : string) (c : GoogleClient) : GoogleClient :=
  mkGoogleClient (base_url c) (auth_manager c)
                 (<["Authorization" := value]> (client_headers c)).

(** A method of [self.auth_manager], called from a client method. *)
Definition on_auth_manager {A} (m : AM A) : CM A :=
  zoom (fun s => (auth_manager (fst s), snd s))
       (fun t s => (with_auth_manager (fst t) (fst s), snd t))
       m.

(** [HTTPStatus.UNAUTHORIZED] *)
Definition UNAUTHORIZED : Z := 401.

Module GoogleClient.

Definition __init__ (base_url' token_url' client_id' client_secret'
                     initial_bearer_token' initial_refresh_token' : string)
                    (w : World)
  : GoogleClient * World :=
  let (am, w') := GoogleAuthManager.__init__ token_url' client_id' client_secret'
                    initial_bearer_token' initial_refresh_token' w in
  (mkGoogleClient base_url' am {[ "Content-Type" := "application/json" ]}, w').

(** [self.headers["Authorization"] = value] *)
Definition set_authorization (value : string) : CM unit :=
  modify (fun s => (with_authorization value (fst s), snd s)).

(** [(payload, None) if isinstance(payload, (bytes, bytearray)) else
    (None, payload)] *)
Definition split_payload (pl : payload) : payload * payload :=
  match pl with
  | PayloadBytes _ => (pl, PayloadNone)
  | _ => (PayloadNone, pl)
  end.

(** The loop [for _ in range(n)] of [_request_with_reauth]; [response]
    is the loop-carried variable, unbound before the first round. *)
Fixpoint reauth_loop (n : nat) (method url : string)
         (params : option (gmap string string)) (pl : payload)
         (response : option Response) : CM (option Response) :=
  match n with
  | O => ret response
  | S n' =>
      let* token := on_auth_manager AuthManager.get_bearer_token in
      set_authorization ("Bearer " ++ token)%string;;
      let '(data, json_payload) := split_payload pl in
      let* hdrs := gets (fun s => client_headers (fst s)) in
      let* response' :=
        requests_request (mkApiRequest method url params hdrs data json_payload) in
      if status_code response' =? UNAUTHORIZED then
        on_auth_manager GoogleAuthManager.refresh_bearer_token;;
        reauth_loop n' method url params pl (Some response')
      else ret (Some response')
  end.

(** [GoogleClient._request_with_reauth] *)
Definition _request_with_reauth (method url : string)
           (params : option (gmap string string)) (pl : payload)
  : CM Response :=
  let* response := reauth_loop 2 method url params pl None in
  match response with
  | Some r => ret r
  | None => raise (UnboundLocalError "response")
  end.

End GoogleClient.

(** The request that [_request_with_reauth] issues when the client's
    headers are [hdrs]. *)
Definition api_request (method url : string) (params : option (gmap string string))
           (pl : payload) (hdrs : gmap string string) : ApiRequest :=
  mkApiRequest method url params hdrs
               (fst (GoogleClient.split_payload pl))
               (snd (GoogleClient.split_payload pl)).

(** ** The three refresh variants, side by side *)

Inductive variant : Type := Generic | Google | HubSpot.

(** Dispatch of [refresh_bearer_token] on the class of the receiver. *)
Definition refresh_bearer_token (v : variant) : AM unit :=
  match v with
  | Generic => AuthManager.refresh_bearer_token
  | Google => GoogleAuthManager.refresh_bearer_token
  | HubSpot => HubSpotAuthManager.refresh_bearer_token
  end.

(** The request each variant posts for the refresh token [rt]. *)
Definition token_request (v : variant) (self : AuthManager) (rt : string)
  : TokenRequest :=
  match v with
  | Generic =>
      mkTokenRequest (token_url self) (Some (auth self)) headers
                     (RawBody (request_data_template_format rt))
  | Google | HubSpot =>
      mkTokenRequest (token_url self) None headers
                     (FormDict (vendor_payload self rt))
  end.

(** The sandbox test of [refresh_bearer_token]. *)
Definition sandboxed (w : World) : bool :=
  str_contains pants_sandbox_substr (cwd w).

(** ** Reading a trace *)

Definition is_http (e : Event) : bool :=
  match e with
  | EvRefreshCall => false
  | _ => true
  end.

Definition http_calls (tr : list Event) : list Event := List.filter is_http tr.

Fixpoint refresh_calls (tr : list Event) : nat :=
  match tr with
  | [] => O
  | EvRefreshCall :: rest => S (refresh_calls rest)
  | _ :: rest => refresh_calls rest
  end.

Fixpoint api_calls (tr : list Event) : list (ApiRequest * Response) :=
  match tr with
  | [] => []
  | EvApi q r :: rest => (q, r) :: api_calls rest
  | _ :: rest => api_calls rest
  end.

(** ** Concrete worlds used below *)

Module Scenario.

Definition reply (status : Z) (d : dict) : Response :=
  mkResponse status (Some d) "".

(** A plain world: not a sandbox, cache directory not writable, no files,
    every token request answered by [token_reply], every API request by
    [api_reply]. *)
Definition plain (token_reply api_reply : Response) : World :=
  mkWorld "/home/app" (fun _ => Some false) ∅ (fun _ => NoFault) O
          (fun _ _ => token_reply) (fun _ _ => api_reply) [] [].

(** The same inside a pants sandbox. *)
Definition sandbox (token_reply api_reply : Response) : World :=
  mkWorld "/tmp/pants-sandbox-Ab12/run" (fun _ => Some false) ∅
          (fun _ => NoFault) O
          (fun _ _ => token_reply) (fun _ _ => api_reply) [] [].

Definition unauthorized : Response := mkResponse 401 None "".
Definition success : Response := mkResponse 200 None "ok".

(** The record left in the cache file by an earlier run. *)
Definition cached_record : dict :=
  <["refresh_token" := Some "R0"]> {[ "access_token" := Some "A0" ]}.

Definition google_cache_path : string := "/shared-data/google_auth.json".

(** A world whose cache directory is writable and already holds
    [cached_record]; the first file operation fails before the file is
    opened and later ones succeed; the token endpoint answers with a new
    access token and a null refresh token. *)
Definition with_cache : World :=
  mkWorld "/home/app" (fun _ => Some true)
          {[ google_cache_path := Some cached_record ]}
          (fun n => match n with O => FailBeforeOpen | _ => NoFault end) O
          (fun _ _ => reply 200 (<["refresh_token" := None]>
                                   {[ "access_token" := Some "A1" ]}))
          (fun _ _ => success) [] [].

(** A Google manager built in [with_cache], and the state its first
    refresh leaves. *)
Definition built : AuthManager * World :=
  GoogleAuthManager.__init__ "https://oauth2.example/token" "id" "secret"
                             "B0" "R0" with_cache.

Definition after_refresh : AuthManager * World :=
  snd (GoogleAuthManager.refresh_bearer_token built).

(** A client whose API always answers 401 while the token endpoint
    keeps issuing the token "A1". *)
Definition always_401 : GoogleClient * World :=
  GoogleClient.__init__ "https://www.googleapis.com"
    "https://oauth2.example/token" "id" "secret" "B0" "R0"
    (plain (reply 200 {[ "access_token" := Some "A1" ]}) unauthorized).

(** A client whose API answers 401 to the initial token "B0" and 200 to
    any other. *)
Definition expired_once : GoogleClient * World :=
  GoogleClient.__init__ "https://www.googleapis.com"
    "https://oauth2.example/token" "id" "secret" "B0" "R0"
    (mkWorld "/home/app" (fun _ => Some false) ∅ (fun _ => NoFault) O
       (fun _ _ => reply 200 {[ "access_token" := Some "A1" ]})
       (fun _ q =>
          if bool_decide (ar_headers q !! "Authorization" = Some "Bearer B0")
          then unauthorized else success)
       [] []).

(** A Google manager built inside a sandbox. *)
Definition in_sandbox : AuthManager * World :=
  GoogleAuthManager.__init__ "https://oauth2.example/token" "id" "secret"
    "B0" "R0" (sandbox (reply 200 {[ "access_token" := Some "A1" ]}) success).

(** A manager of the given variant, built from the given initial tokens
    in a plain world whose token endpoint answers [token_reply]; the
    three constructors differ only in the cache file. *)
Definition manager_with (v : variant) (bearer0 refresh0 : string)
           (token_reply : Response) : AuthManager * World :=
  AuthManager.__init__ "https://oauth2.example/token" "id" "secret"
    bearer0 refresh0
    (match v with
     | Generic => "generic_auth.json"
     | Google => "google_auth.json"
     | HubSpot => "hubspot_auth.json"
     end)
    (plain token_reply success).

Definition manager (v : variant) (token_reply : Response) : AuthManager * World :=
  manager_with v "B0" "R0" token_reply.

(** A manager whose cache directory is writable while every file
    operation fails once the file is open. *)
Definition failing_disk : AuthManager * World :=
  GoogleAuthManager.__init__ "https://oauth2.example/token" "id" "secret"
    "B0" "R0"
    (mkWorld "/home/app" (fun _ => Some true) ∅ (fun _ => FailAfterTruncate) O
             (fun _ _ => success) (fun _ _ => success) [] []).

Definition files_url : string := "https://www.googleapis.com/drive/v3/files".

End Scenario.

(** ** The request methods of [GoogleClient] *)

(** [f"{self.base_url}/{service}/{version}/{entity}"] *)
Definition entity_url (base service version entity : string) : string :=
  (base ++ "/" ++ service ++ "/" ++ version ++ "/" ++ entity)%string.

(** What [get_request] returns: the parsed body, or, with [content=True],
    the dictionary made of the response's text and headers, kept here as
    the response it is built from. *)
Inductive get_result : Type :=
| JsonBody (d : dict)
| TextAndHeaders (r : Response).

(** [GoogleClient.delete_request]; the source's defaults are
    [service="drive"] and [version="v3"]. *)
Definition delete_request (entity service : string)
           (params : option (gmap string string)) (pl : payload) (version : string)
  : CM Z :=
  let* base := gets (fun s => base_url (fst s)) in
  let* response :=
    GoogleClient._request_with_reauth "DELETE" (entity_url base service version entity)
                                      params pl in
  raise_for_status response;;
  ret (status_code response).

(** [GoogleClient.patch_request] *)
Definition patch_request (entity service : string)
           (params : option (gmap string string)) (pl : payload) (version : string)
  : CM dict :=
  let* base := gets (fun s => base_url (fst s)) in
  let* response :=
    GoogleClient._request_with_reauth "PATCH" (entity_url base service version entity)
                                      params pl in
  raise_for_status response;;
  response_json response.

(** [GoogleClient.put_request] *)
Definition put_request (entity service : string)
           (params : option (gmap string string)) (pl : payload) (version : string)
  : CM dict :=
  let* base := gets (fun s => base_url (fst s)) in
  let* response :=
    GoogleClient._request_with_reauth "PUT" (entity_url base service version entity)
                                      params pl in
  raise_for_status response;;
  response_json response.

(** [GoogleClient.post_request] *)
Definition post_request (entity service : string)
           (params : option (gmap string string)) (pl : payload) (version : string)
  : CM dict :=
  let* base := gets (fun s => base_url (fst s)) in
  let* response :=
    GoogleClient._request_with_reauth "POST" (entity_url base service version entity)
                                      params pl in
  raise_for_status response;;
  response_json response.

(** [GoogleClient.get_request]: no payload is passed on. *)
Definition get_request (entity service : string)
           (params : option (gmap string string)) (content : bool) (version : string)
  : CM get_result :=
  let* base := gets (fun s => base_url (fst s)) in
  let* response :=
    GoogleClient._request_with_reauth "GET" (entity_url base service version entity)
                                      params PayloadNone in
  raise_for_status response;;
  if content then ret (TextAndHeaders response)
  else
    let* d := response_json response in
    ret (JsonBody d).

(** The response of the last API call of a trace. *)
Definition last_api_response (tr : list Event) : option Response :=
  match last (api_calls tr) with
  | Some (_, r) => Some r
  | None => None
  end.

(** What every API request of one [_request_with_reauth] call looks like:
    the caller's method, URL, parameters and payload, under headers that
    carry a non-empty bearer token. *)
Definition reauth_request (method url : string) (params : option (gmap string string))
           (pl : payload) (q : ApiRequest) : Prop :=
  exists token hdrs,
    token <> "" /\
    q = api_request method url params pl
          (<["Authorization" := ("Bearer " ++ token)%string]> hdrs).

(** The attributes of a manager that only [__init__] assigns. *)
Definition same_configuration (a b : AuthManager) : Prop :=
  token_url a = token_url b /\ client_id a = client_id b /\
  client_secret a = client_secret b /\ creds_path a = creds_path b /\
  _can_write_to_cache a = _can_write_to_cache b.


(** ** [utils/credentials.py] *)

(** A JSON value, as [json.load] returns it. *)
#[local] Unset Elimination Schemes.
Inductive jval : Type :=
| JNull
| JBool (b : bool)
| JNum (z : Z)
| JStr (s : string)
| JList (l : list jval)
| JObj (m : gmap string jval).
#[local] Set Elimination Schemes.

(** The exceptions of the credential helpers. *)
Inductive cred_exn : Type :=
| CredKeyError (key : string)
| CredTypeError
| AssertionError
| ValueError.

Inductive checked (A : Type) : Type :=
| Value (a : A)
| Failure (e : cred_exn).
Arguments Value {A} a.
Arguments Failure {A} e.

(** [isinstance(v, str)] *)
Definition is_str (v : jval) : bool :=
  match v with
  | JStr _ => true
  | _ => false
  end.

(** [_merge_base_and_subcategory] *)
Definition _merge_base_and_subcategory (system_creds : gmap string jval)
           (sub_category : option string) : checked (gmap string jval) :=
  match sub_category with
  | Some sub =>
      if truthy sub_category then
        let base := filter (fun kv => is_str (snd kv) = true) system_creds in
        match system_creds !! sub with
        | None => Failure (CredKeyError sub)
        | Some (JObj extra) => Value (extra ∪ base)
        | Some _ => Failure CredTypeError
        end
      else Value system_creds
  | None => Value system_creds
  end.

(** [parts[len(parts) - k]] *)
Definition from_end (parts : list string) (k : nat) : option string :=
  parts !! (length parts - k)%nat.

(** [_get_workday_tenant_from_url]; [app_id] only occurs in the assertion
    messages. *)
Definition _get_workday_tenant_from_url (server_url app_id : string) : checked string :=
  let server_url_parts := split_on "/" server_url in
  match server_url_parts with
  | [] => Failure AssertionError
  | _ =>
      match from_end server_url_parts 1, from_end server_url_parts 2 with
      | Some tenant, Some marker =>
          if (1 <? length server_url_parts)%nat && truthy (Some tenant)
             && bool_decide (marker = "ccx")
          then Value tenant
          else Failure AssertionError
      | _, _ => Failure AssertionError
      end
  end.

(** [s.removesuffix(suffix)] *)
Fixpoint removesuffix (s suffix : string) : string :=
  if String.eqb s suffix then EmptyString
  else match s with
       | EmptyString => EmptyString
       | String c rest => String c (removesuffix rest suffix)
       end.

(** The members of [CredentialKeys] that [get_tool_credentials] writes. *)
Module CredentialKeys.
Definition USERNAME : string := "username".
Definition PASSWORD : string := "password".
Definition BEARER_TOKEN : string := "bearer_token".
Definition API_KEY : string := "api_key".
Definition BASE_URL : string := "base_url".
Definition TENANT_NAME : string := "tenant_name".
End CredentialKeys.

(** One expected connection of a system, with what the SDK's
    [connections] module returns for its [app_id]: the attributes the code
    reads, or the items of a key-value connection in iteration order.
    [OtherConnection] is an expected connection of any further type. *)
Inductive Connection : Type :=
| BasicAuth (app_id : string) (username password url : option string)
| BearerToken (app_id : string) (token url : option string)
| ApiKeyAuth (app_id : string) (api_key url : option string)
| OAuth2AuthCode (app_id : string) (access_token url : option string)
| KeyValue (app_id : string) (items : list (string * option string))
| OtherConnection (app_id : string).

Definition connection_app_id (connection : Connection) : string :=
  match connection with
  | BasicAuth a _ _ _ | BearerToken a _ _ | ApiKeyAuth a _ _
  | OAuth2AuthCode a _ _ | KeyValue a _ | OtherConnection a => a
  end.

(** [v in _none_conn_values], that is [v in [None, "None", ""]] *)
Definition is_none_conn_value (v : option string) : bool :=
  match v with
  | None => true
  | Some s => bool_decide (s = "None") || bool_decide (s = "")
  end.

(** The loop over [conn.items()] of a key-value connection. *)
Fixpoint merge_key_value (items : list (string * option string)) (merged : dict)
  : checked dict :=
  match items with
  | [] => Value merged
  | (key, new_value) :: rest =>
      let existing_value := dict_get merged key in
      if negb (truthy new_value) || bool_decide (new_value = Some "None")
      then merge_key_value rest merged
      else if truthy existing_value && negb (bool_decide (existing_value = new_value))
      then Failure ValueError
      else merge_key_value rest (<[key := new_value]> merged)
  end.

(** The [base_url] default taken from a connection that is not key-value. *)
Definition default_base_url (url : option string) (merged : dict) : dict :=
  if negb (is_none_conn_value url)
  then if is_none_conn_value (dict_get merged CredentialKeys.BASE_URL)
       then <[CredentialKeys.BASE_URL := url]> merged
       else merged
  else merged.

(** The Workday tenant workaround at the end of each round;
    [is_workday] is [system == Systems.WORKDAY]. *)
Definition workday_tenant (is_workday : bool) (app_id : string) (merged : dict)
  : checked dict :=
  let server_url := dict_get merged CredentialKeys.BASE_URL in
  if is_workday && str_contains "workday_oauth2_auth_code" app_id && truthy server_url
  then match _get_workday_tenant_from_url (py_str server_url) app_id with
       | Value tenant_name =>
           Value (<[CredentialKeys.BASE_URL :=
                      Some (removesuffix (py_str server_url)
                                         ("/" ++ tenant_name)%string)]>
                    (<[CredentialKeys.TENANT_NAME := Some tenant_name]> merged))
       | Failure e => Failure e
       end
  else Value merged.

(** One round of [for connection in required_connections]. *)
Definition merge_connection (is_workday : bool) (connection : Connection)
           (merged : dict) : checked dict :=
  let after_type : checked dict :=
    match connection with
    | BasicAuth _ username password url =>
        Value (default_base_url url
                 (<[CredentialKeys.PASSWORD := password]>
                    (<[CredentialKeys.USERNAME := username]> merged)))
    | BearerToken _ token url =>
        Value (default_base_url url (<[CredentialKeys.BEARER_TOKEN := token]> merged))
    | ApiKeyAuth _ api_key url =>
        Value (default_base_url url (<[CredentialKeys.API_KEY := api_key]> merged))
    | OAuth2AuthCode _ access_token url =>
        Value (default_base_url url
                 (<[CredentialKeys.BEARER_TOKEN := access_token]> merged))
    | KeyValue _ items => merge_key_value items merged
    | OtherConnection _ => Failure ValueError
    end in
  match after_type with
  | Value m => workday_tenant is_workday (connection_app_id connection) m
  | Failure e => Failure e
  end.

(** The SDK branch of [get_tool_credentials], from the non-empty list of
    expected connections to the merged credentials. *)
Fixpoint merge_connections (is_workday : bool) (required_connections : list Connection)
         (merged_conn_creds : dict) : checked dict :=
  match required_connections with
  | [] => Value merged_conn_creds
  | connection :: rest =>
      match merge_connection is_workday connection merged_conn_creds with
      | Value m => merge_connections is_workday rest m
      | Failure e => Failure e
      end
  end.

(** Lines 135 to 190 of [get_tool_credentials]: the assertion on the
    expected connections, then the merge from an empty dictionary. *)
Definition sdk_credentials (is_workday : bool) (required_connections : list Connection)
  : checked dict :=
  match required_connections with
  | [] => Failure AssertionError
  | _ => merge_connections is_workday required_connections ∅
  end.

(** An item that the key-value loop does not skip. *)
Definition accepted (v : option string) : Prop :=
  exists s, v = Some s /\ s <> "" /\ s <> "None".


(** ** Further concrete worlds *)

Module Cases.

(** The record of [Scenario.cached_record] with a third key. *)
Definition cache_record : dict := <["scope" := Some "drive"]> Scenario.cached_record.

(** A Google manager whose cache directory is writable and whose cache
    file holds [cache_record], on a disk without faults. *)
Definition cached : AuthManager * World :=
  GoogleAuthManager.__init__ "https://oauth2.example/token" "id" "secret" "B0" "R0"
    (mkWorld "/home/app" (fun _ => Some true)
             {[ Scenario.google_cache_path := Some cache_record ]}
             (fun _ => NoFault) O
             (fun _ _ => Scenario.success) (fun _ _ => Scenario.success) [] []).

(** The same manager when the cache path cannot be examined: [stat]
    raises an error that [is_file()] does not swallow. *)
Definition unreadable : AuthManager * World :=
  GoogleAuthManager.__init__ "https://oauth2.example/token" "id" "secret" "B0" "R0"
    (mkWorld "/home/app" (fun _ => Some true)
             {[ Scenario.google_cache_path := Some cache_record ]}
             (fun _ => FailStat) O
             (fun _ _ => Scenario.success) (fun _ _ => Scenario.success) [] []).

(** A client whose API answers 401 and whose token endpoint answers 400. *)
Definition revoked : GoogleClient * World :=
  GoogleClient.__init__ "https://www.googleapis.com"
    "https://oauth2.example/token" "id" "secret" "B0" "R0"
    (Scenario.plain (Scenario.reply 400 ∅) Scenario.unauthorized).

(** Credentials of a system with two sub-categories. *)
Definition ariba_creds : gmap string jval :=
  <["base_url" := JStr "https://ariba.example"]>
    (<["realm" := JStr "base-realm"]>
       (<["BUYER" := JObj (<["realm" := JStr "buyer-realm"]>
                             {[ "api_key" := JStr "k1" ]})]>
          {[ "SUPPLIER" := JObj {[ "api_key" := JStr "k2" ]} ]})).

(** The items of a key-value connection as the platform may return them. *)
Definition google_items : list (string * option string) :=
  [("base_url", Some "https://www.googleapis.com"); ("client_id", Some "id");
   ("scope", Some "None"); ("tenant", Some ""); ("region", None)].

End Cases.

(** * Properties *)

(** ** Unfolding the monad *)

Ltac unfold_monad :=
  unfold is_file, next_fault in *;
  unfold bind, ret, raise, gets, modify, try_except, on_world, print, log_event,
         get_self, modify_self, os_getcwd in *.

Ltac unfold_refresh :=
  unfold refresh_bearer_token, AuthManager.refresh_bearer_token,
         GoogleAuthManager.refresh_bearer_token,
         HubSpotAuthManager.refresh_bearer_token,
         AuthManager._get_cred_from_server_cache,
         requests_post, raise_for_status, response_json, dict_getitem, py_or in *.

Lemma error_status_true (r : Response) :
  400 <= status_code r < 600 ->
  (400 <=? status_code r) && (status_code r <? 600) = true.
Proof.
  intros H. apply andb_true_iff.
  split; [apply Z.leb_le | apply Z.ltb_lt]; lia.
Qed.

Lemma error_status_false (r : Response) :
  ~ (400 <= status_code r < 600) ->
  (400 <=? status_code r) && (status_code r <? 600) = false.
Proof.
  intros H. apply andb_false_iff.
  destruct (Z.leb_spec 400 (status_code r)); [right | left; reflexivity].
  apply Z.ltb_ge. lia.
Qed.

Lemma truthy_cons (s : string) : truthy (Some s) = true -> s <> "".
Proof. destruct s; simpl; congruence. Qed.

(** For the two token keys the lookup answers from memory alone. *)
Lemma get_cred_bearer (s : AuthManager * World) :
  AuthManager._get_cred_from_server_cache bearer_token_resp_key s
  = (Ok (_in_memory_bearer_token (fst s)), s).
Proof. reflexivity. Qed.

Lemma get_cred_refresh (s : AuthManager * World) :
  AuthManager._get_cred_from_server_cache refresh_token_resp_key s
  = (Ok (_in_memory_refresh_token (fst s)), s).
Proof. reflexivity. Qed.

(** What [_update_server_creds_cache] leaves behind. *)
Lemma update_run (creds : dict) (self : AuthManager) (w : World) :
  exists self' w',
    AuthManager._update_server_creds_cache creds (self, w) = (Ok tt, (self', w')) /\
    _in_memory_bearer_token self' =
      match creds !! bearer_token_resp_key with
      | Some v => v
      | None => _in_memory_bearer_token self
      end /\
    _in_memory_refresh_token self' =
      match creds !! refresh_token_resp_key with
      | Some v => v
      | None => _in_memory_refresh_token self
      end /\
    trace w' = trace w /\
    (fs_faults w (fs_ops w) <> NoFault -> _can_write_to_cache self = true ->
     stdout w' = stdout w ++
       ["WARNING: Failed to write to disk cache. Tokens only stored in-memory."]) /\
    (_can_write_to_cache self = false -> files w' = files w) /\
    api_server w' = api_server w /\
    token_server w' = token_server w /\
    cwd w' = cwd w /\
    creds_path self' = creds_path self /\
    (files w' = files w \/
     files w' = <[creds_path self := None]> (files w) \/
     files w' = <[creds_path self := Some creds]> (files w)).
Proof.
  unfold AuthManager._update_server_creds_cache, write_json.
  unfold_monad.
  destruct (creds !! bearer_token_resp_key) as [vb|];
    destruct (creds !! refresh_token_resp_key) as [vr|]; simpl;
    destruct (_can_write_to_cache self); simpl;
    try destruct (fs_faults w (fs_ops w)); simpl;
    do 2 eexists; (split; [reflexivity|]); simpl;
    repeat lazymatch goal with
           | |- _ /\ _ => split
           end;
    try congruence; tauto.
Qed.

Lemma write_json_fault (path : string) (creds : dict) (s : AuthManager * World) :
  fs_faults (snd s) (fs_ops (snd s)) <> NoFault ->
  fst (write_json path creds s) = Raise OSError.
Proof.
  destruct s as [self w]. simpl. intros Hf.
  unfold write_json. unfold_monad. simpl.
  destruct (fs_faults w (fs_ops w)); simpl; congruence.
Qed.

Lemma http_calls_snoc_refresh (tr : list Event) :
  http_calls (tr ++ [EvRefreshCall]) = http_calls tr.
Proof.
  unfold http_calls. rewrite List.filter_app. simpl. apply app_nil_r.
Qed.

(** ** The token store *)

(** C9: [_update_server_creds_cache] returns normally in every world, also
    when the write to the cache file raises (the write is attempted, fails
    with an [OSError], and only a warning is printed), and each of the two
    in-memory fields whose key occurs in [creds] holds the new value
    afterwards. *)
Theorem update_never_raises (creds : dict) (self : AuthManager) (w : World) :
  exists self' w',
    AuthManager._update_server_creds_cache creds (self, w) = (Ok tt, (self', w')) /\
    (forall v, creds !! bearer_token_resp_key = Some v ->
               _in_memory_bearer_token self' = v) /\
    (forall v, creds !! refresh_token_resp_key = Some v ->
               _in_memory_refresh_token self' = v) /\
    (_can_write_to_cache self = true ->
     fs_faults w (fs_ops w) <> NoFault ->
     fst (write_json (creds_path self') creds (self', w)) = Raise OSError /\
     stdout w' = stdout w ++
       ["WARNING: Failed to write to disk cache. Tokens only stored in-memory."]).
Proof.
  destruct (update_run creds self w) as (self' & w' & Hrun & Hb & Hr & _ & Hout & _).
  exists self', w'. split; [exact Hrun|].
  split; [intros v Hv; rewrite Hb, Hv; reflexivity|].
  split; [intros v Hv; rewrite Hr, Hv; reflexivity|].
  intros Hcan Hfault. split.
  - apply write_json_fault. exact Hfault.
  - apply Hout; assumption.
Qed.

(** With a disk that fails every write, an update of both keys still
    succeeds in memory. *)
Lemma update_never_raises_witness :
  exists self' w',
    AuthManager._update_server_creds_cache
      (<["refresh_token" := Some "R1"]> {[ "access_token" := Some "A1" ]})
      Scenario.failing_disk = (Ok tt, (self', w')) /\
    _in_memory_bearer_token self' = Some "A1" /\
    _in_memory_refresh_token self' = Some "R1" /\
    stdout w' =
      ["WARNING: Failed to write to disk cache. Tokens only stored in-memory."].
Proof.
  destruct (update_never_raises
              (<["refresh_token" := Some "R1"]> {[ "access_token" := Some "A1" ]})
              (fst Scenario.failing_disk) (snd Scenario.failing_disk))
    as (self' & w' & Hrun & Hb & Hr & Hw).
  exists self', w'. split; [exact Hrun|].
  split; [apply Hb; reflexivity|].
  split; [apply Hr; reflexivity|].
  apply Hw; [reflexivity | discriminate].
Defined.

(** ** Refreshing *)

(** C6: when the working directory contains the sandbox marker,
    [refresh_bearer_token] of every variant returns at once: no HTTP call
    is added to the trace, and the manager (both tokens) and the files are
    what they were. *)
Theorem sandbox_refresh_is_noop (v : variant) (self : AuthManager) (w : World) :
  sandboxed w = true ->
  exists w',
    refresh_bearer_token v (self, w) = (Ok tt, (self, w')) /\
    http_calls (trace w') = http_calls (trace w) /\
    files w' = files w /\
    stdout w' = stdout w.
Proof.
  intros Hs. unfold sandboxed in Hs.
  exists (set_trace (trace w ++ [EvRefreshCall]) w).
  split.
  - destruct v; unfold_refresh; unfold_monad; simpl; rewrite Hs; reflexivity.
  - simpl. split; [apply http_calls_snoc_refresh | split; reflexivity].
Qed.

Lemma sandbox_refresh_is_noop_witness :
  sandboxed (snd Scenario.in_sandbox) = true /\
  exists w',
    refresh_bearer_token Google (fst Scenario.in_sandbox, snd Scenario.in_sandbox)
      = (Ok tt, (fst Scenario.in_sandbox, w')) /\
    http_calls (trace w') = http_calls (trace (snd Scenario.in_sandbox)) /\
    files w' = files (snd Scenario.in_sandbox) /\
    stdout w' = stdout (snd Scenario.in_sandbox).
Proof.
  split; [reflexivity|].
  apply (sandbox_refresh_is_noop Google). reflexivity.
Defined.

(** C5, as amended: when the token endpoint answers a refresh of any
    variant with a client or server error status (400 to 599), the call
    raises the [HTTPError] of that status, and the manager (both in-memory
    tokens) and the files are exactly what they were; only the request
    itself is added to the trace. *)
Theorem refresh_error_status_propagates
        (v : variant) (self : AuthManager) (w : World) (rt : string) :
  sandboxed w = false ->
  _in_memory_refresh_token self = Some rt ->
  truthy (Some rt) = true ->
  let q := token_request v self rt in
  let r := token_server w (trace w ++ [EvRefreshCall]) q in
  400 <= status_code r < 600 ->
  exists w',
    refresh_bearer_token v (self, w) = (Raise (HTTPError (status_code r)), (self, w')) /\
    files w' = files w /\
    trace w' = trace w ++ [EvRefreshCall; EvTokenPost q r].
Proof.
  intros Hs Hrt Ht q r Hst.
  pose proof (error_status_true r Hst) as He.
  unfold sandboxed in Hs.
  exists (set_trace (trace w ++ [EvRefreshCall; EvTokenPost q r]) w).
  split; [|split; reflexivity].
  destruct v; unfold_refresh; unfold_monad; simpl; rewrite Hs; simpl;
    rewrite Hrt; simpl in *; destruct rt; try discriminate; simpl;
    subst q r; simpl in *; rewrite He; simpl; rewrite <- app_assoc; reflexivity.
Qed.

Lemma refresh_error_status_propagates_witness :
  let s := Scenario.manager HubSpot (Scenario.reply 503 ∅) in
  sandboxed (snd s) = false /\
  _in_memory_refresh_token (fst s) = Some "R0" /\
  exists w',
    refresh_bearer_token HubSpot (fst s, snd s) = (Raise (HTTPError 503), (fst s, w')) /\
    files w' = files (snd s) /\
    trace w' = trace (snd s) ++
      [EvRefreshCall;
       EvTokenPost (token_request HubSpot (fst s) "R0") (Scenario.reply 503 ∅)].
Proof.
  split; [reflexivity|]. split; [reflexivity|].
  apply (refresh_error_status_propagates HubSpot
           (fst (Scenario.manager HubSpot (Scenario.reply 503 ∅)))
           (snd (Scenario.manager HubSpot (Scenario.reply 503 ∅))) "R0");
    [reflexivity | reflexivity | reflexivity | simpl; lia].
Defined.

(** C5, as stated, fails: a 304 answer is not a 2xx status, yet
    [raise_for_status] lets it through, the refresh returns normally and
    the bearer token is replaced by the one in the body. *)
Lemma refresh_accepts_status_304 :
  let s := Scenario.manager Generic
             (Scenario.reply 304 {[ "access_token" := Some "X" ]}) in
  let out := refresh_bearer_token Generic s in
  exists q r,
    trace (snd (snd out)) = [EvRefreshCall; EvTokenPost q r] /\
    status_code r = 304 /\
    ~ (200 <= status_code r < 300) /\
    fst out = Ok tt /\
    _in_memory_bearer_token (fst s) = Some "B0" /\
    _in_memory_bearer_token (fst (snd out)) = Some "X".
Proof.
  do 2 eexists.
  split; [vm_compute; reflexivity|].
  split; [reflexivity|].
  split; [simpl; lia|].
  repeat split; vm_compute; reflexivity.
Qed.

(** A refresh outside the sandbox that returns normally has found a
    non-empty refresh token in memory. *)
Ltac refresh_token_in_memory self rt Hrt :=
  destruct (_in_memory_refresh_token self) as [rt|] eqn:Hrt;
  [destruct rt; [simpl in *; discriminate|] | simpl in *; discriminate].

(** C7: after a HubSpot refresh that returns normally, the refresh token
    in the store is the one the request carried, whatever the response
    holds under [refresh_token]. *)
Theorem hubspot_keeps_sent_refresh_token
        (self : AuthManager) (w : World) (s' : AuthManager * World) :
  sandboxed w = false ->
  HubSpotAuthManager.refresh_bearer_token (self, w) = (Ok tt, s') ->
  exists rt r,
    trace (snd s') =
      trace w ++ [EvRefreshCall; EvTokenPost (token_request HubSpot self rt) r] /\
    vendor_payload self rt !! "refresh_token" = Some rt /\
    _in_memory_refresh_token (fst s') = Some rt /\
    AuthManager._get_cred_from_server_cache refresh_token_resp_key s'
      = (Ok (Some rt), s') /\
    (files (snd s') = files w \/
     files (snd s') = <[creds_path self := None]> (files w) \/
     exists record,
       files (snd s') = <[creds_path self := Some record]> (files w) /\
       record !! refresh_token_resp_key = Some (Some rt)).
Proof.
  intros Hs Hrun. unfold sandboxed in Hs.
  unfold_refresh. unfold_monad. simpl in Hrun. rewrite Hs in Hrun. simpl in Hrun.
  refresh_token_in_memory self rt Hrt.
  simpl in Hrun.
  set (q := mkTokenRequest (token_url self) None headers
              (FormDict (vendor_payload self (String a rt)))) in *.
  set (r := token_server w (trace w ++ [EvRefreshCall]) q) in *.
  destruct ((400 <=? status_code r) && (status_code r <? 600)); [discriminate|].
  simpl in Hrun.
  destruct (json r) as [d|]; [|discriminate]. simpl in Hrun.
  destruct (d !! bearer_token_resp_key) as [acc|]; [|discriminate].
  simpl in Hrun.
  match type of Hrun with
  | AuthManager._update_server_creds_cache ?c (?a0, ?w0) = _ =>
      destruct (update_run c a0 w0)
        as (self' & w' & Hupd & _ & Hr & Htr & _ & _ & _ & _ & _ & _ & Hfiles)
  end.
  rewrite Hupd in Hrun. injection Hrun as <-. simpl.
  exists (String a rt), r.
  split; [rewrite Htr; simpl; rewrite <- app_assoc; reflexivity|].
  split; [reflexivity|].
  split; [rewrite Hr; reflexivity|].
  split.
  - change (AuthManager._get_cred_from_server_cache refresh_token_resp_key
              (self', w') = (Ok (Some (String a rt)), (self', w'))).
    rewrite get_cred_refresh. simpl. rewrite Hr. reflexivity.
  - simpl in Hfiles. destruct Hfiles as [Hf | [Hf | Hf]]; [auto | auto |].
    right. right. eexists. split; [exact Hf | reflexivity].
Qed.

Lemma hubspot_keeps_sent_refresh_token_witness :
  let s := Scenario.manager HubSpot
             (Scenario.reply 200 (<["refresh_token" := Some "ROTATED"]>
                                    {[ "access_token" := Some "A1" ]})) in
  let s' := snd (HubSpotAuthManager.refresh_bearer_token s) in
  sandboxed (snd s) = false /\
  HubSpotAuthManager.refresh_bearer_token (fst s, snd s) = (Ok tt, s') /\
  exists rt r,
    trace (snd s') =
      trace (snd s) ++
        [EvRefreshCall; EvTokenPost (token_request HubSpot (fst s) rt) r] /\
    vendor_payload (fst s) rt !! "refresh_token" = Some rt /\
    _in_memory_refresh_token (fst s') = Some rt /\
    AuthManager._get_cred_from_server_cache refresh_token_resp_key s'
      = (Ok (Some rt), s') /\
    (files (snd s') = files (snd s) \/
     files (snd s') = <[creds_path (fst s) := None]> (files (snd s)) \/
     exists record,
       files (snd s') = <[creds_path (fst s) := Some record]> (files (snd s)) /\
       record !! refresh_token_resp_key = Some (Some rt)).
Proof.
  split; [reflexivity|]. split; [vm_compute; reflexivity|].
  apply hubspot_keeps_sent_refresh_token; [reflexivity | vm_compute; reflexivity].
Defined.

(** C8: after a Google refresh that returns normally, the stored refresh
    token is the one the request carried (the one stored before the call)
    when the response has no [refresh_token] field, and the value of that
    field when the response has one. *)
Theorem google_refresh_token_rotation
        (self : AuthManager) (w : World) (s' : AuthManager * World) :
  sandboxed w = false ->
  GoogleAuthManager.refresh_bearer_token (self, w) = (Ok tt, s') ->
  exists rt r d,
    trace (snd s') =
      trace w ++ [EvRefreshCall; EvTokenPost (token_request Google self rt) r] /\
    vendor_payload self rt !! "refresh_token" = Some rt /\
    _in_memory_refresh_token self = Some rt /\
    json r = Some d /\
    match d !! refresh_token_resp_key with
    | None => _in_memory_refresh_token (fst s') = _in_memory_refresh_token self
    | Some v => _in_memory_refresh_token (fst s') = v
    end.
Proof.
  intros Hs Hrun. unfold sandboxed in Hs.
  unfold_refresh. unfold_monad. simpl in Hrun. rewrite Hs in Hrun. simpl in Hrun.
  refresh_token_in_memory self rt Hrt.
  simpl in Hrun.
  set (q := mkTokenRequest (token_url self) None headers
              (FormDict (vendor_payload self (String a rt)))) in *.
  set (r := token_server w (trace w ++ [EvRefreshCall]) q) in *.
  destruct ((400 <=? status_code r) && (status_code r <? 600)); [discriminate|].
  simpl in Hrun.
  destruct (json r) as [d|] eqn:Hjson; [|discriminate]. simpl in Hrun.
  destruct (d !! bearer_token_resp_key) as [acc|]; [|discriminate].
  simpl in Hrun.
  match type of Hrun with
  | AuthManager._update_server_creds_cache ?c (?a0, ?w0) = _ =>
      destruct (update_run c a0 w0) as (self' & w' & Hupd & _ & Hr & Htr & _)
  end.
  rewrite Hupd in Hrun. injection Hrun as <-. simpl.
  exists (String a rt), r, d.
  split; [rewrite Htr; simpl; rewrite <- app_assoc; reflexivity|].
  split; [reflexivity|]. split; [reflexivity|]. split; [exact Hjson|].
  - rewrite lookup_insert_eq in Hr. rewrite Hr.
    unfold dict_get_default.
    destruct (d !! refresh_token_resp_key); reflexivity.
Qed.

Lemma google_refresh_token_rotation_witness :
  let s := Scenario.manager Google
             (Scenario.reply 200 (<["refresh_token" := Some "ROTATED"]>
                                    {[ "access_token" := Some "A1" ]})) in
  let s' := snd (GoogleAuthManager.refresh_bearer_token s) in
  sandboxed (snd s) = false /\
  GoogleAuthManager.refresh_bearer_token (fst s, snd s) = (Ok tt, s') /\
  _in_memory_refresh_token (fst s') = Some "ROTATED" /\
  exists rt r d,
    trace (snd s') =
      trace (snd s) ++
        [EvRefreshCall; EvTokenPost (token_request Google (fst s) rt) r] /\
    vendor_payload (fst s) rt !! "refresh_token" = Some rt /\
    _in_memory_refresh_token (fst s) = Some rt /\
    json r = Some d /\
    match d !! refresh_token_resp_key with
    | None => _in_memory_refresh_token (fst s') = _in_memory_refresh_token (fst s)
    | Some v => _in_memory_refresh_token (fst s') = v
    end.
Proof.
  split; [reflexivity|]. split; [vm_compute; reflexivity|].
  split; [vm_compute; reflexivity|].
  apply google_refresh_token_rotation; [reflexivity | vm_compute; reflexivity].
Defined.

(** C10: when the response maps [access_token] to null (and the status is
    not an error status), the generic refresh leaves the bearer key out of
    the update and the stored bearer token as it was, while the Google and
    HubSpot refreshes return normally and store the string "None". *)
Theorem null_access_token_divergence
        (v : variant) (self : AuthManager) (w : World) (rt : string) (d : dict) :
  sandboxed w = false ->
  _in_memory_refresh_token self = Some rt ->
  truthy (Some rt) = true ->
  let q := token_request v self rt in
  let r := token_server w (trace w ++ [EvRefreshCall]) q in
  ~ (400 <= status_code r < 600) ->
  json r = Some d ->
  d !! bearer_token_resp_key = Some None ->
  exists s',
    refresh_bearer_token v (self, w) = (Ok tt, s') /\
    AuthManager.comprehension d [bearer_token_resp_key; refresh_token_resp_key]
      !! bearer_token_resp_key = None /\
    _in_memory_bearer_token (fst s') =
      match v with
      | Generic => _in_memory_bearer_token self
      | Google | HubSpot => Some "None"
      end.
Proof.
  intros Hs Hrt Ht q r Hst Hjson Hnull.
  pose proof (error_status_false r Hst) as He.
  unfold sandboxed in Hs.
  assert (Hcomp : AuthManager.comprehension d
                    [bearer_token_resp_key; refresh_token_resp_key]
                    !! bearer_token_resp_key = None).
  { simpl. unfold dict_get. rewrite Hnull.
    destruct (d !! refresh_token_resp_key) as [[x|]|];
      try rewrite lookup_insert_ne by discriminate; apply lookup_empty. }
  destruct v; unfold_refresh; unfold_monad; simpl; rewrite Hs; simpl;
    rewrite Hrt; simpl in *; destruct rt; try discriminate; simpl;
    subst q r; simpl in *; rewrite He; simpl; rewrite Hjson; simpl;
    try (rewrite Hnull; simpl);
    match goal with
    | |- exists _, AuthManager._update_server_creds_cache ?c (?a0, ?w0) = _ /\ _ =>
        destruct (update_run c a0 w0) as (self' & w' & Hupd & Hb & _)
    end;
    exists (self', w'); (split; [exact Hupd|]); (split; [exact Hcomp|]);
    simpl; rewrite Hb.
  - simpl in Hcomp. rewrite Hcomp. reflexivity.
  - reflexivity.
  - reflexivity.
Qed.

Lemma null_access_token_divergence_witness :
  let null_reply := Scenario.reply 200 {[ "access_token" := None ]} in
  json null_reply = Some {[ "access_token" := None ]} /\
  (exists s',
     refresh_bearer_token Generic (Scenario.manager Generic null_reply) = (Ok tt, s') /\
     _in_memory_bearer_token (fst s') = Some "B0") /\
  (exists s',
     refresh_bearer_token Google (Scenario.manager Google null_reply) = (Ok tt, s') /\
     _in_memory_bearer_token (fst s') = Some "None") /\
  (exists s',
     refresh_bearer_token HubSpot (Scenario.manager HubSpot null_reply) = (Ok tt, s') /\
     _in_memory_bearer_token (fst s') = Some "None").
Proof.
  pose (null_reply := Scenario.reply 200 {[ "access_token" := None ]}).
  assert (H : forall v, exists s',
             refresh_bearer_token v (Scenario.manager v null_reply) = (Ok tt, s') /\
             _in_memory_bearer_token (fst s') =
               match v with
               | Generic => Some "B0"
               | Google | HubSpot => Some "None"
               end).
  { intros v.
    destruct (null_access_token_divergence v
                (fst (Scenario.manager v null_reply))
                (snd (Scenario.manager v null_reply)) "R0"
                {[ "access_token" := None ]})
      as (s' & Hrun & _ & Hb);
      try (destruct v; reflexivity).
    - destruct v; simpl; lia.
    - exists s'. split; [destruct v; exact Hrun|].
      rewrite Hb. destruct v; reflexivity. }
  split; [reflexivity|].
  split; [exact (H Generic)|]. split; [exact (H Google) | exact (H HubSpot)].
Defined.

(** ** Where the code departs from its documentation *)

(** [get_bearer_token] in full: the in-memory token when it is a non-empty
    string, and otherwise the [AttributeError] of the attribute that
    [__init__] no longer assigns. *)
Lemma get_bearer_token_run (s : AuthManager * World) :
  AuthManager.get_bearer_token s =
    if truthy (_in_memory_bearer_token (fst s))
    then (Ok (py_str (_in_memory_bearer_token (fst s))), s)
    else (Raise (AttributeError "initial_bearer_token"), s).
Proof.
  destruct s as [self w].
  unfold AuthManager.get_bearer_token, AuthManager._get_cred_from_server_cache,
         py_or, initial_bearer_token.
  unfold_monad. simpl.
  destruct (_in_memory_bearer_token self) as [[|c t]|] eqn:Hb;
    simpl; rewrite ?Hb; reflexivity.
Qed.

(** C1: a manager built with the empty string as initial bearer token, in
    any world and with any cache file, raises [AttributeError] from
    [get_bearer_token] instead of returning a string. *)
Theorem get_bearer_token_raises_on_empty_token
        (token_cache_file : string) (w : World) :
  AuthManager.get_bearer_token
    (AuthManager.__init__ "https://oauth2.example/token" "id" "secret"
                          "" "R0" token_cache_file w)
  = (Raise (AttributeError "initial_bearer_token"),
     AuthManager.__init__ "https://oauth2.example/token" "id" "secret"
                          "" "R0" token_cache_file w).
Proof.
  rewrite get_bearer_token_run.
  unfold AuthManager.__init__. unfold_monad. simpl.
  destruct (parent_writable w _) as [[|]|]; reflexivity.
Qed.

(** C3: in [Scenario.after_refresh] the cache directory was found
    writable, the cache file holds a record with the refresh token "R0",
    the next file operation would succeed and no refresh token is set in
    memory; the lookup of the refresh key still answers [None], without
    touching the file. *)
Theorem get_cred_never_reads_cache_file :
  let s := Scenario.after_refresh in
  _can_write_to_cache (fst s) = true /\
  _in_memory_refresh_token (fst s) = None /\
  files (snd s) !! creds_path (fst s) = Some (Some Scenario.cached_record) /\
  dict_get Scenario.cached_record refresh_token_resp_key = Some "R0" /\
  fs_faults (snd s) (fs_ops (snd s)) = NoFault /\
  AuthManager._get_cred_from_server_cache refresh_token_resp_key s = (Ok None, s).
Proof.
  repeat split; vm_compute; reflexivity.
Qed.

(** C4: with no refresh token in the store, no variant sends the initial
    refresh token: the call raises [AttributeError] before any request.
    First for a manager built with an empty initial refresh token, then
    for the Google manager of [Scenario.after_refresh], built with "R0",
    whose stored refresh token a null [refresh_token] field has erased. *)
Theorem refresh_raises_without_stored_token :
  (forall v : variant,
     let s := Scenario.manager_with v "B0" "" Scenario.success in
     sandboxed (snd s) = false /\
     fst (refresh_bearer_token v s) = Raise (AttributeError "initial_refresh_token") /\
     http_calls (trace (snd (snd (refresh_bearer_token v s)))) = []) /\
  (let s := Scenario.after_refresh in
   sandboxed (snd s) = false /\
   _in_memory_refresh_token (fst Scenario.built) = Some "R0" /\
   _in_memory_refresh_token (fst s) = None /\
   fst (GoogleAuthManager.refresh_bearer_token s)
     = Raise (AttributeError "initial_refresh_token") /\
   http_calls (trace (snd (snd (GoogleAuthManager.refresh_bearer_token s))))
     = http_calls (trace (snd s))).
Proof.
  split.
  - intros v. destruct v; repeat split; vm_compute; reflexivity.
  - repeat split; vm_compute; reflexivity.
Qed.

(** ** The retry loop of the client *)

(** The Google refresh, case by case. *)
Lemma google_refresh_run (self : AuthManager) (w : World) :
  GoogleAuthManager.refresh_bearer_token (self, w) =
    let w1 := set_trace (trace w ++ [EvRefreshCall]) w in
    if sandboxed w then (Ok tt, (self, w1))
    else if truthy (_in_memory_refresh_token self) then
      let rt := py_str (_in_memory_refresh_token self) in
      let q := token_request Google self rt in
      let r := token_server w (trace w1) q in
      let w2 := set_trace (trace w1 ++ [EvTokenPost q r]) w1 in
      if (400 <=? status_code r) && (status_code r <? 600)
      then (Raise (HTTPError (status_code r)), (self, w2))
      else match json r with
           | None => (Raise JSONDecodeError, (self, w2))
           | Some d =>
               match d !! bearer_token_resp_key with
               | None => (Raise (KeyError bearer_token_resp_key), (self, w2))
               | Some access =>
                   AuthManager._update_server_creds_cache
                     (<[refresh_token_resp_key :=
                          dict_get_default d refresh_token_resp_key (Some rt)]>
                        {[ bearer_token_resp_key := Some (py_str access) ]})
                     (self, w2)
               end
           end
    else (Raise (AttributeError "initial_refresh_token"), (self, w1)).
Proof.
  unfold sandboxed. unfold_refresh. unfold_monad. simpl.
  destruct (str_contains pants_sandbox_substr (cwd w)); [reflexivity|]. simpl.
  destruct (_in_memory_refresh_token self) as [[|a rt]|]; try reflexivity.
  simpl.
  match goal with
  | |- context [EvTokenPost ?q ?r] => generalize r; intros r0
  end.
  destruct ((400 <=? status_code r0) && (status_code r0 <? 600)); [reflexivity|].
  simpl. destruct (json r0) as [d|]; [|reflexivity]. simpl.
  destruct (d !! bearer_token_resp_key); reflexivity.
Qed.

(** Whatever its outcome, one Google refresh adds exactly one refresh
    mark and no API call to the trace. *)
Lemma google_refresh_trace (self : AuthManager) (w : World)
      (res : result unit) (s1 : AuthManager * World) :
  GoogleAuthManager.refresh_bearer_token (self, w) = (res, s1) ->
  exists tr1,
    trace (snd s1) = trace w ++ tr1 /\
    refresh_calls tr1 = 1%nat /\
    api_calls tr1 = [] /\
    api_server (snd s1) = api_server w.
Proof.
  rewrite google_refresh_run. cbv zeta.
  destruct (sandboxed w).
  { intros [= <- <-]. exists [EvRefreshCall]. simpl. auto. }
  destruct (truthy (_in_memory_refresh_token self));
    [|intros [= <- <-]; exists [EvRefreshCall]; simpl; auto].
  set (q := token_request Google self _).
  set (r := token_server w _ q).
  assert (Hev : exists tr1,
            (trace w ++ [EvRefreshCall]) ++ [EvTokenPost q r] = trace w ++ tr1 /\
            refresh_calls tr1 = 1%nat /\ api_calls tr1 = []).
  { exists [EvRefreshCall; EvTokenPost q r]. rewrite <- app_assoc. simpl. auto. }
  destruct Hev as (tr1 & Htr1 & Hn & Ha).
  destruct ((400 <=? status_code r) && (status_code r <? 600)).
  { intros [= <- <-]. exists tr1. simpl. auto. }
  destruct (json r) as [d|]; [|intros [= <- <-]; exists tr1; simpl; auto].
  destruct (d !! bearer_token_resp_key) as [acc|];
    [|intros [= <- <-]; exists tr1; simpl; auto].
  match goal with
  | |- AuthManager._update_server_creds_cache ?c (?a0, ?w0) = _ -> _ =>
      destruct (update_run c a0 w0)
        as (self' & w' & Hupd & _ & _ & Htr & _ & _ & Hapi & _)
  end.
  rewrite Hupd. intros [= <- <-]. exists tr1. simpl. rewrite Htr, Hapi. simpl. auto.
Qed.

(** One round of the loop. *)
Lemma reauth_loop_step (n : nat) (method url : string)
      (params : option (gmap string string)) (pl : payload)
      (resp0 : option Response) (c : GoogleClient) (w : World) :
  GoogleClient.reauth_loop (S n) method url params pl resp0 (c, w) =
    if truthy (_in_memory_bearer_token (auth_manager c)) then
      let token := py_str (_in_memory_bearer_token (auth_manager c)) in
      let c1 := with_authorization ("Bearer " ++ token)%string c in
      let q := api_request method url params pl (client_headers c1) in
      let r := api_server w (trace w) q in
      let w1 := set_trace (trace w ++ [EvApi q r]) w in
      if status_code r =? UNAUTHORIZED then
        match GoogleAuthManager.refresh_bearer_token (auth_manager c, w1) with
        | (Ok _, (a2, w2)) =>
            GoogleClient.reauth_loop n method url params pl (Some r)
              (with_auth_manager a2 c1, w2)
        | (Raise e, (a2, w2)) => (Raise e, (with_auth_manager a2 c1, w2))
        end
      else (Ok (Some r), (c1, w1))
    else (Raise (AttributeError "initial_bearer_token"), (c, w)).
Proof.
  simpl.
  unfold on_auth_manager, zoom, GoogleClient.set_authorization, requests_request.
  unfold bind at 1.
  simpl. rewrite get_bearer_token_run. simpl.
  destruct (truthy (_in_memory_bearer_token (auth_manager c))).
  2:{ destruct c; reflexivity. }
  unfold_monad. simpl. unfold api_request.
  destruct (GoogleClient.split_payload pl) as [data jp]. simpl.
  match goal with
  | |- context [status_code ?r =? _] => destruct (status_code r =? UNAUTHORIZED)
  end.
  - unfold with_authorization at 1. simpl.
    destruct (GoogleAuthManager.refresh_bearer_token _) as [[u|e] [a2 w2]]; reflexivity.
  - reflexivity.
Qed.

Lemma api_calls_app (a b : list Event) :
  api_calls (a ++ b) = api_calls a ++ api_calls b.
Proof.
  induction a as [|e a IH]; [reflexivity|].
  destruct e; simpl; rewrite IH; reflexivity.
Qed.

Lemma refresh_calls_app (a b : list Event) :
  refresh_calls (a ++ b) = (refresh_calls a + refresh_calls b)%nat.
Proof.
  induction a as [|e a IH]; [reflexivity|].
  destruct e; simpl; rewrite IH; reflexivity.
Qed.

(** C2, as amended: whenever [_request_with_reauth] returns a response,
    a first response other than 401 is that response, with one API call
    and no refresh; after a first 401 the Google refresh runs, then the
    same request (same method, URL, parameters and payload, and the same
    headers but for [Authorization]) is issued exactly once more, carrying
    the bearer token current after that refresh, and the second response
    is the one returned; the number of refresh calls is one when the
    second response is not 401 and two when it is again 401, the second
    refresh running after the second request. *)
Theorem request_with_reauth_retries_once
        (method url : string) (params : option (gmap string string)) (pl : payload)
        (c : GoogleClient) (w : World) (r : Response) (s' : GoogleClient * World) :
  GoogleClient._request_with_reauth method url params pl (c, w) = (Ok r, s') ->
  let token1 := py_str (_in_memory_bearer_token (auth_manager c)) in
  let q1 := api_request method url params pl
              (<["Authorization" := ("Bearer " ++ token1)%string]> (client_headers c)) in
  let r1 := api_server w (trace w) q1 in
  exists tr,
    trace (snd s') = trace w ++ tr /\
    if status_code r1 =? UNAUTHORIZED then
      exists s1 token2 q2 tr1 tr2,
        GoogleAuthManager.refresh_bearer_token
          (auth_manager c, set_trace (trace w ++ [EvApi q1 r1]) w) = (Ok tt, s1) /\
        AuthManager.get_bearer_token s1 = (Ok token2, s1) /\
        q2 = api_request method url params pl
               (<["Authorization" := ("Bearer " ++ token2)%string]>
                  (<["Authorization" := ("Bearer " ++ token1)%string]>
                     (client_headers c))) /\
        ar_headers q2 !! "Authorization" = Some ("Bearer " ++ token2)%string /\
        r = api_server (snd s1) (trace (snd s1)) q2 /\
        api_calls tr = [(q1, r1); (q2, r)] /\
        refresh_calls tr = (if status_code r =? UNAUTHORIZED then 2%nat else 1%nat) /\
        tr = [EvApi q1 r1] ++ tr1 ++ [EvApi q2 r] ++ tr2 /\
        trace (snd s1) = trace w ++ [EvApi q1 r1] ++ tr1 /\
        refresh_calls tr1 = 1%nat /\ api_calls tr1 = [] /\
        if status_code r =? UNAUTHORIZED then
          exists s2,
            GoogleAuthManager.refresh_bearer_token
              (fst s1, set_trace (trace (snd s1) ++ [EvApi q2 r]) (snd s1))
            = (Ok tt, s2) /\
            snd s' = snd s2 /\
            refresh_calls tr2 = 1%nat /\ api_calls tr2 = []
        else
          tr2 = [] /\
          snd s' = set_trace (trace (snd s1) ++ [EvApi q2 r]) (snd s1)
    else
      r = r1 /\ tr = [EvApi q1 r1].
Proof.
  intros Hrun token1 q1 r1.
  unfold GoogleClient._request_with_reauth, bind in Hrun.
  rewrite reauth_loop_step in Hrun. cbv zeta in Hrun.
  destruct (truthy (_in_memory_bearer_token (auth_manager c))); [|discriminate].
  change (api_server w (trace w) _) with r1 in Hrun.
  change (api_request method url params pl _) with q1 in Hrun.
  destruct (status_code r1 =? UNAUTHORIZED).
  2:{ unfold ret in Hrun. simpl in Hrun.
      inversion Hrun; subst; clear Hrun. exists [EvApi q1 r1]. simpl. auto. }
  destruct (GoogleAuthManager.refresh_bearer_token _) as [[[]|e] [a2 w2]] eqn:Href;
    [|discriminate].
  destruct (google_refresh_trace _ _ _ _ Href) as (tr1 & Htr1 & Hn1 & Ha1 & Hapi1).
  simpl in Htr1, Hapi1.
  rewrite reauth_loop_step in Hrun. cbv zeta in Hrun.
  simpl auth_manager in Hrun.
  destruct (truthy (_in_memory_bearer_token a2)) eqn:Ht2; [|discriminate].
  set (token2 := py_str (_in_memory_bearer_token a2)) in *.
  match type of Hrun with
  | context [api_server w2 (trace w2) ?q] => set (q2 := q) in *
  end.
  set (r2 := api_server w2 (trace w2) q2) in *.
  assert (Hget : AuthManager.get_bearer_token (a2, w2) = (Ok token2, (a2, w2))).
  { rewrite get_bearer_token_run. simpl. rewrite Ht2. reflexivity. }
  assert (Hq2 : q2 = api_request method url params pl
                       (<["Authorization" := ("Bearer " ++ token2)%string]>
                          (<["Authorization" := ("Bearer " ++ token1)%string]>
                             (client_headers c)))).
  { reflexivity. }
  assert (Hhdr : ar_headers q2 !! "Authorization" = Some ("Bearer " ++ token2)%string).
  { subst q2. simpl. apply lookup_insert_eq. }
  assert (Hs1 : trace w2 = trace w ++ [EvApi q1 r1] ++ tr1).
  { rewrite Htr1, <- app_assoc. reflexivity. }
  destruct (status_code r2 =? UNAUTHORIZED) eqn:Hst2.
  - match type of Hrun with
    | context [GoogleAuthManager.refresh_bearer_token ?s] =>
        destruct (GoogleAuthManager.refresh_bearer_token s)
          as [[[]|e] [a3 w3]] eqn:Href2; [|discriminate]
    end.
    destruct (google_refresh_trace _ _ _ _ Href2) as (tr2 & Htr2 & Hn2 & Ha2 & _).
    simpl in Htr2. unfold ret in Hrun. simpl in Hrun.
    inversion Hrun; subst r s'; clear Hrun. simpl.
    exists ([EvApi q1 r1] ++ tr1 ++ [EvApi q2 r2] ++ tr2).
    split.
    { rewrite Htr2, Htr1. rewrite <- !app_assoc. reflexivity. }
    exists (a2, w2), token2, q2, tr1, tr2. rewrite Hst2.
    split; [reflexivity|]. split; [exact Hget|]. split; [exact Hq2|].
    split; [exact Hhdr|]. split; [reflexivity|].
    split; [rewrite !api_calls_app, Ha1, Ha2; reflexivity|].
    split; [rewrite !refresh_calls_app, Hn1, Hn2; reflexivity|].
    split; [reflexivity|]. split; [exact Hs1|].
    split; [exact Hn1|]. split; [exact Ha1|].
    exists (a3, w3). simpl. rewrite Href2. auto.
  - unfold ret in Hrun. simpl in Hrun.
    inversion Hrun; subst r s'; clear Hrun. simpl.
    exists ([EvApi q1 r1] ++ tr1 ++ [EvApi q2 r2] ++ []).
    split.
    { rewrite Htr1. rewrite <- !app_assoc. reflexivity. }
    exists (a2, w2), token2, q2, tr1, []. rewrite Hst2.
    split; [reflexivity|]. split; [exact Hget|]. split; [exact Hq2|].
    split; [exact Hhdr|]. split; [reflexivity|].
    split; [rewrite !api_calls_app, Ha1; reflexivity|].
    split; [rewrite !refresh_calls_app, Hn1; reflexivity|].
    split; [reflexivity|]. split; [exact Hs1|].
    split; [exact Hn1|]. split; [exact Ha1|].
    split; reflexivity.
Qed.

(** An expired token: 401, one refresh, then 200 with the new token. *)
Lemma request_with_reauth_retries_once_witness :
  let s := Scenario.expired_once in
  let out := GoogleClient._request_with_reauth "GET" Scenario.files_url None
               PayloadNone (fst s, snd s) in
  out = (Ok Scenario.success, snd out) /\
  let token1 := py_str (_in_memory_bearer_token (auth_manager (fst s))) in
  let q1 := api_request "GET" Scenario.files_url None PayloadNone
              (<["Authorization" := ("Bearer " ++ token1)%string]>
                 (client_headers (fst s))) in
  let r1 := api_server (snd s) (trace (snd s)) q1 in
  exists tr,
    trace (snd (snd out)) = trace (snd s) ++ tr /\
    if status_code r1 =? UNAUTHORIZED then
      exists s1 token2 q2 tr1 tr2,
        GoogleAuthManager.refresh_bearer_token
          (auth_manager (fst s),
           set_trace (trace (snd s) ++ [EvApi q1 r1]) (snd s)) = (Ok tt, s1) /\
        AuthManager.get_bearer_token s1 = (Ok token2, s1) /\
        q2 = api_request "GET" Scenario.files_url None PayloadNone
               (<["Authorization" := ("Bearer " ++ token2)%string]>
                  (<["Authorization" := ("Bearer " ++ token1)%string]>
                     (client_headers (fst s)))) /\
        ar_headers q2 !! "Authorization" = Some ("Bearer " ++ token2)%string /\
        Scenario.success = api_server (snd s1) (trace (snd s1)) q2 /\
        api_calls tr = [(q1, r1); (q2, Scenario.success)] /\
        refresh_calls tr =
          (if status_code Scenario.success =? UNAUTHORIZED then 2%nat else 1%nat) /\
        tr = [EvApi q1 r1] ++ tr1 ++ [EvApi q2 Scenario.success] ++ tr2 /\
        trace (snd s1) = trace (snd s) ++ [EvApi q1 r1] ++ tr1 /\
        refresh_calls tr1 = 1%nat /\ api_calls tr1 = [] /\
        if status_code Scenario.success =? UNAUTHORIZED then
          exists s2,
            GoogleAuthManager.refresh_bearer_token
              (fst s1,
               set_trace (trace (snd s1) ++ [EvApi q2 Scenario.success]) (snd s1))
            = (Ok tt, s2) /\
            snd (snd out) = snd s2 /\
            refresh_calls tr2 = 1%nat /\ api_calls tr2 = []
        else
          tr2 = [] /\
          snd (snd out)
          = set_trace (trace (snd s1) ++ [EvApi q2 Scenario.success]) (snd s1)
    else
      Scenario.success = r1 /\ tr = [EvApi q1 r1].
Proof.
  split; [vm_compute; reflexivity|].
  apply (request_with_reauth_retries_once "GET" Scenario.files_url None PayloadNone
           (fst Scenario.expired_once) (snd Scenario.expired_once)
           Scenario.success).
  vm_compute. reflexivity.
Defined.

(** C2, as stated, fails in two ways.  When the retry is answered 401 as
    well, the loop refreshes a second time before it returns that
    response: two refresh calls, not one.  And when the refresh after the
    first 401 raises (here the token endpoint answers 400), no second
    request is issued and no response is returned: the exception reaches
    the caller. *)
Lemma reauth_refreshes_twice_on_repeated_401 :
  (let out := GoogleClient._request_with_reauth "GET" Scenario.files_url None
                PayloadNone Scenario.always_401 in
   let tr := trace (snd (snd out)) in
   exists q1 r1 q2 r2,
     api_calls tr = [(q1, r1); (q2, r2)] /\
     status_code r1 = UNAUTHORIZED /\
     status_code r2 = UNAUTHORIZED /\
     fst out = Ok r2 /\
     refresh_calls tr = 2%nat /\
     refresh_calls tr <> 1%nat) /\
  (let out := GoogleClient._request_with_reauth "GET" Scenario.files_url None
                PayloadNone Cases.revoked in
   let tr := trace (snd (snd out)) in
   exists q1 r1,
     api_calls tr = [(q1, r1)] /\
     status_code r1 = UNAUTHORIZED /\
     refresh_calls tr = 1%nat /\
     fst out = Raise (HTTPError 400)).
Proof.
  split.
  - do 4 eexists.
    split; [vm_compute; reflexivity|].
    split; [reflexivity|]. split; [reflexivity|].
    split; [vm_compute; reflexivity|].
    split; [vm_compute; reflexivity|].
    vm_compute. discriminate.
  - do 2 eexists.
    split; [vm_compute; reflexivity|].
    split; [reflexivity|].
    split; [vm_compute; reflexivity|].
    vm_compute. reflexivity.
Qed.

(** * Further properties of the code *)

(** ** The token store *)

(** Every refresh variant, case by case. *)
Lemma refresh_run (v : variant) (self : AuthManager) (w : World) :
  refresh_bearer_token v (self, w) =
    let w1 := set_trace (trace w ++ [EvRefreshCall]) w in
    if sandboxed w then (Ok tt, (self, w1))
    else if truthy (_in_memory_refresh_token self) then
      let rt := py_str (_in_memory_refresh_token self) in
      let q := token_request v self rt in
      let r := token_server w (trace w1) q in
      let w2 := set_trace (trace w1 ++ [EvTokenPost q r]) w1 in
      if (400 <=? status_code r) && (status_code r <? 600)
      then (Raise (HTTPError (status_code r)), (self, w2))
      else match json r with
           | None => (Raise JSONDecodeError, (self, w2))
           | Some d =>
               match v with
               | Generic =>
                   AuthManager._update_server_creds_cache
                     (AuthManager.comprehension d
                        [bearer_token_resp_key; refresh_token_resp_key])
                     (self, w2)
               | Google =>
                   match d !! bearer_token_resp_key with
                   | None => (Raise (KeyError bearer_token_resp_key), (self, w2))
                   | Some access =>
                       AuthManager._update_server_creds_cache
                         (<[refresh_token_resp_key :=
                              dict_get_default d refresh_token_resp_key (Some rt)]>
                            {[ bearer_token_resp_key := Some (py_str access) ]})
                         (self, w2)
                   end
               | HubSpot =>
                   match d !! bearer_token_resp_key with
                   | None => (Raise (KeyError bearer_token_resp_key), (self, w2))
                   | Some access =>
                       AuthManager._update_server_creds_cache
                         (<[bearer_token_resp_key := Some (py_str access)]>
                            {[ refresh_token_resp_key := Some rt ]})
                         (self, w2)
                   end
               end
           end
    else (Raise (AttributeError "initial_refresh_token"), (self, w1)).
Proof.
  unfold sandboxed.
  destruct v; unfold_refresh; unfold_monad; simpl;
    (destruct (str_contains pants_sandbox_substr (cwd w)); [reflexivity|]); simpl;
    (destruct (_in_memory_refresh_token self) as [[|a rt]|]; try reflexivity); simpl;
    match goal with
    | |- context [EvTokenPost ?q ?r] => generalize r; intros r0
    end;
    (destruct ((400 <=? status_code r0) && (status_code r0 <? 600)); [reflexivity|]);
    simpl; (destruct (json r0) as [d|]; [|reflexivity]); simpl;
    try reflexivity;
    destruct (d !! bearer_token_resp_key); reflexivity.
Qed.

(** An update changes none of the attributes that [__init__] fixes. *)
Lemma update_keeps_configuration (creds : dict) (self : AuthManager) (w : World) :
  same_configuration (fst (snd (AuthManager._update_server_creds_cache creds (self, w)))) self.
Proof.
  unfold AuthManager._update_server_creds_cache, write_json, same_configuration.
  unfold_monad.
  destruct (creds !! bearer_token_resp_key) as [vb|];
    destruct (creds !! refresh_token_resp_key) as [vr|]; simpl;
    destruct (_can_write_to_cache self) eqn:Hc; simpl;
    try destruct (fs_faults w (fs_ops w)); simpl; rewrite ?Hc; tauto.
Qed.

(** The update at the end of a refresh never raises. *)
Lemma update_returns (creds : dict) (s : AuthManager * World) :
  fst (AuthManager._update_server_creds_cache creds s) = Ok tt.
Proof.
  destruct s as [self w].
  destruct (update_run creds self w) as (self' & w' & Hupd & _).
  rewrite Hupd. reflexivity.
Qed.

(** An update adds nothing to the trace. *)
Lemma update_keeps_trace (creds : dict) (s : AuthManager * World) :
  trace (snd (snd (AuthManager._update_server_creds_cache creds s))) = trace (snd s).
Proof.
  destruct s as [self w].
  destruct (update_run creds self w) as (self' & w' & Hupd & _ & _ & Htr & _).
  rewrite Hupd. exact Htr.
Qed.

Lemma comprehension_lookup (d : dict) (key : string) :
  key = bearer_token_resp_key \/ key = refresh_token_resp_key ->
  AuthManager.comprehension d [bearer_token_resp_key; refresh_token_resp_key] !! key
  = match dict_get d key with
    | Some v => Some (Some v)
    | None => None
    end.
Proof.
  intros [-> | ->]; simpl;
    destruct (dict_get d bearer_token_resp_key) as [b|];
    destruct (dict_get d refresh_token_resp_key) as [r|];
    simplify_map_eq; reflexivity.
Qed.

(** X1: [_get_cred_from_server_cache] leaves the manager, the files and
    the trace as they were, whatever its outcome.  It returns normally
    except in one case: for a key other than the two token keys, with the
    directory recorded as writable, when the [is_file()] probe itself
    raises; the probe sits outside the [try], so that [OSError] reaches
    the caller. *)
Theorem get_cred_is_read_only (key : string) (self : AuthManager) (w : World) :
  exists res w',
    AuthManager._get_cred_from_server_cache key (self, w) = (res, (self, w')) /\
    files w' = files w /\ trace w' = trace w /\
    (res = Raise OSError <->
       key <> bearer_token_resp_key /\ key <> refresh_token_resp_key /\
       _can_write_to_cache self = true /\ fs_faults w (fs_ops w) = FailStat) /\
    (res <> Raise OSError -> exists v, res = Ok v).
Proof.
  unfold AuthManager._get_cred_from_server_cache, read_json, is_file.
  unfold_monad. simpl.
  destruct (decide (key = bearer_token_resp_key)) as [Hb|Hb].
  { eexists _, w. repeat lazymatch goal with |- _ /\ _ => split end;
      try reflexivity; [|eauto].
    split; [discriminate | intros (? & _); contradiction]. }
  destruct (decide (key = refresh_token_resp_key)) as [Hr|Hr].
  { eexists _, w. repeat lazymatch goal with |- _ /\ _ => split end;
      try reflexivity; [|eauto].
    split; [discriminate | intros (_ & ? & _); contradiction]. }
  destruct (_can_write_to_cache self) eqn:Hcw; simpl.
  2:{ eexists _, w. repeat lazymatch goal with |- _ /\ _ => split end;
        try reflexivity; [|eauto].
      split; [discriminate | intros (_ & _ & ? & _); discriminate]. }
  destruct (fs_faults w (fs_ops w)) eqn:Hfault; simpl.
  4:{ eexists _, w. repeat lazymatch goal with |- _ /\ _ => split end;
        try reflexivity; [tauto | intros []; reflexivity]. }
  all: destruct (bool_decide (is_Some (files w !! creds_path self))); simpl;
    rewrite ?Hfault; simpl;
    try (destruct (files w !! creds_path self) as [[d|]|]; simpl);
    eexists _, _; (repeat lazymatch goal with |- _ /\ _ => split end);
    try reflexivity; try (intros _; eauto);
    (split; [discriminate | intros (_ & _ & _ & ?); discriminate]).
Qed.

(** X2: for a key other than the two token keys, when the directory was
    recorded as writable: if the cache path cannot be examined, the
    [OSError] of [is_file()] propagates; if the file holds a JSON object
    and the read does not fail, the lookup yields the value the file holds
    under that key; in every other case it yields [None].  When the
    directory was not recorded as writable it yields [None] without
    touching the file. *)
Theorem get_cred_other_key_reads_file (key : string) (self : AuthManager) (w : World) :
  key <> bearer_token_resp_key ->
  key <> refresh_token_resp_key ->
  fst (AuthManager._get_cred_from_server_cache key (self, w)) =
    if _can_write_to_cache self then
      match fs_faults w (fs_ops w) with
      | FailStat => Raise OSError
      | NoFault =>
          Ok (match files w !! creds_path self with
              | Some (Some d) => dict_get d key
              | _ => None
              end)
      | _ => Ok None
      end
    else Ok None.
Proof.
  intros Hb Hr.
  unfold AuthManager._get_cred_from_server_cache, read_json, is_file.
  unfold_monad. simpl.
  destruct (decide (key = bearer_token_resp_key)); [contradiction|].
  destruct (decide (key = refresh_token_resp_key)); [contradiction|].
  destruct (_can_write_to_cache self); simpl; [|reflexivity].
  destruct (fs_faults w (fs_ops w)) eqn:Hfault; simpl; [| | |reflexivity];
    destruct (files w !! creds_path self) as [[d|]|] eqn:Hf; simpl;
    rewrite ?Hfault; simpl; rewrite ?Hf; reflexivity.
Qed.

Lemma get_cred_other_key_reads_file_witness :
  fst (AuthManager._get_cred_from_server_cache "scope"
         (fst Cases.cached, snd Cases.cached)) = Ok (Some "drive") /\
  fst (AuthManager._get_cred_from_server_cache "scope"
         (fst Cases.unreadable, snd Cases.unreadable)) = Raise OSError.
Proof.
  split.
  - rewrite (get_cred_other_key_reads_file "scope" (fst Cases.cached) (snd Cases.cached))
      by discriminate.
    vm_compute. reflexivity.
  - rewrite (get_cred_other_key_reads_file "scope"
               (fst Cases.unreadable) (snd Cases.unreadable))
      by discriminate.
    vm_compute. reflexivity.
Defined.

(** X3: after [_update_server_creds_cache] with a non-empty bearer token
    in [creds], [get_bearer_token] returns that token, whatever the cache
    file holds and whether or not the write succeeded. *)
Theorem update_then_get_bearer_token
        (creds : dict) (self : AuthManager) (w : World) (b : string) :
  creds !! bearer_token_resp_key = Some (Some b) ->
  b <> "" ->
  exists s',
    AuthManager._update_server_creds_cache creds (self, w) = (Ok tt, s') /\
    AuthManager.get_bearer_token s' = (Ok b, s').
Proof.
  intros Hb Hne.
  destruct (update_run creds self w) as (self' & w' & Hrun & Hmem & _).
  exists (self', w'). split; [exact Hrun|].
  rewrite get_bearer_token_run. simpl. rewrite Hmem, Hb.
  destruct b; [contradiction | reflexivity].
Qed.

Lemma update_then_get_bearer_token_witness :
  exists s',
    AuthManager._update_server_creds_cache {[ "access_token" := Some "A1" ]}
      (fst Scenario.failing_disk, snd Scenario.failing_disk) = (Ok tt, s') /\
    AuthManager.get_bearer_token s' = (Ok "A1", s').
Proof.
  apply (update_then_get_bearer_token {[ "access_token" := Some "A1" ]}
           (fst Scenario.failing_disk) (snd Scenario.failing_disk) "A1");
    [reflexivity | discriminate].
Defined.

(** X4: when the directory was found writable and the disk does not
    fail, the update leaves a cache file that holds exactly [creds] (keys
    that [creds] lacks are gone from the file even if memory keeps them),
    and a following lookup of a key other than the token keys reads that
    key of [creds] back. *)
Theorem update_persists_exactly_creds
        (creds : dict) (self : AuthManager) (w : World) (key : string) :
  _can_write_to_cache self = true ->
  fs_faults w (fs_ops w) = NoFault ->
  fs_faults w (S (fs_ops w)) = NoFault ->
  key <> bearer_token_resp_key ->
  key <> refresh_token_resp_key ->
  exists s',
    AuthManager._update_server_creds_cache creds (self, w) = (Ok tt, s') /\
    files (snd s') = <[creds_path self := Some creds]> (files w) /\
    fst (AuthManager._get_cred_from_server_cache key s') = Ok (dict_get creds key).
Proof.
  intros Hcan Hf0 Hf1 Hkb Hkr.
  unfold AuthManager._update_server_creds_cache, write_json.
  unfold AuthManager._get_cred_from_server_cache, read_json. unfold_monad.
  destruct (decide (key = bearer_token_resp_key)); [contradiction|].
  destruct (decide (key = refresh_token_resp_key)); [contradiction|].
  destruct (creds !! bearer_token_resp_key) as [vb|];
    destruct (creds !! refresh_token_resp_key) as [vr|]; simpl;
    rewrite Hcan; simpl; rewrite Hf0; simpl;
    eexists; (split; [reflexivity|]); simpl; (split; [reflexivity|]);
    rewrite Hcan; simpl; rewrite Hf1; simpl; rewrite lookup_insert_eq; simpl;
    rewrite ?Hf1; simpl; rewrite lookup_insert_eq; reflexivity.
Qed.

Lemma update_persists_exactly_creds_witness :
  let creds : dict := <["scope" := Some "mail"]> {[ "access_token" := Some "A1" ]} in
  let self := fst Cases.cached in
  let w := snd Cases.cached in
  _can_write_to_cache self = true /\
  exists s',
    AuthManager._update_server_creds_cache creds (self, w) = (Ok tt, s') /\
    files (snd s') = <[creds_path self := Some creds]> (files w) /\
    fst (AuthManager._get_cred_from_server_cache "scope" s')
      = Ok (dict_get creds "scope").
Proof.
  split; [reflexivity|].
  apply (update_persists_exactly_creds
           (<["scope" := Some "mail"]> {[ "access_token" := Some "A1" ]})
           (fst Cases.cached) (snd Cases.cached) "scope");
    [reflexivity | reflexivity | reflexivity | discriminate | discriminate].
Defined.

(** X5: when the directory was not found writable, the update changes
    nothing outside the manager (no file operation, no output), and a
    following lookup of a key other than the token keys yields [None]. *)
Theorem update_without_writable_cache
        (creds : dict) (self : AuthManager) (w : World) (key : string) :
  _can_write_to_cache self = false ->
  key <> bearer_token_resp_key ->
  key <> refresh_token_resp_key ->
  exists self',
    AuthManager._update_server_creds_cache creds (self, w) = (Ok tt, (self', w)) /\
    AuthManager._get_cred_from_server_cache key (self', w) = (Ok None, (self', w)).
Proof.
  intros Hcan Hkb Hkr.
  assert (Hrun : exists self',
            AuthManager._update_server_creds_cache creds (self, w)
            = (Ok tt, (self', w))).
  { unfold AuthManager._update_server_creds_cache. unfold_monad.
    destruct (creds !! bearer_token_resp_key) as [vb|];
      destruct (creds !! refresh_token_resp_key) as [vr|]; simpl;
      rewrite Hcan; destruct w; eexists; reflexivity. }
  destruct Hrun as (self' & Hrun). exists self'. split; [exact Hrun|].
  pose proof (update_keeps_configuration creds self w) as (_ & _ & _ & _ & Hc).
  rewrite Hrun in Hc. simpl in Hc. rewrite Hcan in Hc.
  unfold AuthManager._get_cred_from_server_cache. unfold_monad. simpl.
  destruct (decide (key = bearer_token_resp_key)); [contradiction|].
  destruct (decide (key = refresh_token_resp_key)); [contradiction|].
  rewrite Hc. reflexivity.
Qed.

Lemma update_without_writable_cache_witness :
  let s := Scenario.manager Google Scenario.success in
  _can_write_to_cache (fst s) = false /\
  exists self',
    AuthManager._update_server_creds_cache {[ "access_token" := Some "A1" ]}
      (fst s, snd s) = (Ok tt, (self', snd s)) /\
    AuthManager._get_cred_from_server_cache "scope" (self', snd s)
      = (Ok None, (self', snd s)).
Proof.
  split; [reflexivity|].
  apply (update_without_writable_cache {[ "access_token" := Some "A1" ]}
           (fst (Scenario.manager Google Scenario.success))
           (snd (Scenario.manager Google Scenario.success)) "scope");
    [reflexivity | discriminate | discriminate].
Defined.

Lemma split_on_nonempty (sep : ascii) (s : string) : split_on sep s <> [].
Proof.
  destruct s as [|c s]; simpl; [discriminate|].
  destruct (Ascii.eqb c sep); [discriminate|].
  destruct (split_on sep s); discriminate.
Qed.

Lemma split_on_app (sep : ascii) (a t : string) :
  split_on sep (a ++ String sep t)%string = split_on sep a ++ split_on sep t.
Proof.
  induction a as [|c a IH]; simpl.
  - rewrite Ascii.eqb_refl. reflexivity.
  - destruct (Ascii.eqb c sep); [rewrite IH; reflexivity|].
    rewrite IH. pose proof (split_on_nonempty sep a) as Hne.
    destruct (split_on sep a) as [|p ps]; [contradiction | reflexivity].
Qed.

Lemma free_of_cons (sep c : ascii) (s : string) :
  free_of sep (String c s) = negb (Ascii.eqb sep c) && free_of sep s.
Proof.
  unfold free_of. simpl.
  destruct (ascii_dec sep c) as [->|Hne].
  - rewrite Ascii.eqb_refl. destruct s; reflexivity.
  - apply Ascii.eqb_neq in Hne. rewrite Hne. reflexivity.
Qed.

Lemma split_on_free (sep : ascii) (t : string) :
  free_of sep t = true -> split_on sep t = [t].
Proof.
  induction t as [|c t IH]; [reflexivity|].
  rewrite free_of_cons. intros [Hc Ht]%andb_true_iff.
  simpl. rewrite Ascii.eqb_sym. apply negb_true_iff in Hc. rewrite Hc.
  rewrite (IH Ht). reflexivity.
Qed.

(** A plain file name is its own path below [/shared-data]. *)
Lemma shared_data_path_plain (file : string) :
  file <> "" -> file <> "." -> free_of "/" file = true ->
  shared_data_path file = ("/shared-data/" ++ file)%string.
Proof.
  intros Hne Hdot Hfree. unfold shared_data_path.
  rewrite (split_on_free _ _ Hfree).
  rewrite filter_cons_True by (split; assumption).
  reflexivity.
Qed.

(** X6: the constructor keeps the initial tokens in memory, places the
    cache file at [Path("/shared-data/" + token_cache_file)] (the path as
    pathlib normalises it: empty and ["."] components dropped, which for a
    plain file name is [/shared-data/] followed by the name), records the
    directory as writable exactly when the probe says so (a probe that
    raises [OSError] counts as not writable), touches neither files nor
    trace, and prints a warning whenever the directory is not recorded as
    writable. *)
Theorem init_records_writability
        (url cid secret bearer0 refresh0 file : string) (w : World) :
  let s := AuthManager.__init__ url cid secret bearer0 refresh0 file w in
  creds_path (fst s) = shared_data_path file /\
  (file <> "" -> file <> "." -> free_of "/" file = true ->
   creds_path (fst s) = ("/shared-data/" ++ file)%string) /\
  shared_data_path "" = "/shared-data" /\
  shared_data_path "x.json/" = "/shared-data/x.json" /\
  _can_write_to_cache (fst s) =
    match parent_writable w (shared_data_path file) with
    | Some true => true
    | _ => false
    end /\
  _in_memory_bearer_token (fst s) = Some bearer0 /\
  _in_memory_refresh_token (fst s) = Some refresh0 /\
  files (snd s) = files w /\ trace (snd s) = trace w /\
  (_can_write_to_cache (fst s) = false -> exists msg, stdout (snd s) = stdout w ++ [msg]).
Proof.
  cbv zeta.
  assert (Hpath : creds_path (fst (AuthManager.__init__ url cid secret bearer0 refresh0 file w))
                  = shared_data_path file).
  { unfold AuthManager.__init__. unfold_monad. simpl.
    destruct (parent_writable w _) as [[|]|]; reflexivity. }
  split; [exact Hpath|].
  split; [intros Hne Hdot Hfree; rewrite Hpath; apply shared_data_path_plain; assumption|].
  split; [vm_compute; reflexivity|].
  split; [vm_compute; reflexivity|].
  unfold AuthManager.__init__. unfold_monad. simpl.
  destruct (parent_writable w _) as [[|]|]; simpl;
    repeat lazymatch goal with |- _ /\ _ => split end;
    try reflexivity; try discriminate; intros _; eexists; reflexivity.
Qed.

(** X7: a manager built with a non-empty initial bearer token returns it
    from [get_bearer_token], in any world and without reading the cache
    file. *)
Theorem init_then_get_bearer_token
        (url cid secret bearer0 refresh0 file : string) (w : World) :
  bearer0 <> "" ->
  let s := AuthManager.__init__ url cid secret bearer0 refresh0 file w in
  AuthManager.get_bearer_token s = (Ok bearer0, s).
Proof.
  intros Hne s. rewrite get_bearer_token_run.
  assert (Hb : _in_memory_bearer_token (fst s) = Some bearer0).
  { subst s. unfold AuthManager.__init__. unfold_monad. simpl.
    destruct (parent_writable w _) as [[|]|]; reflexivity. }
  rewrite Hb. destruct bearer0; [contradiction | reflexivity].
Qed.

Lemma init_then_get_bearer_token_witness :
  let s := AuthManager.__init__ "https://oauth2.example/token" "id" "secret"
             "B0" "R0" "google_auth.json" Scenario.with_cache in
  AuthManager.get_bearer_token s = (Ok "B0", s).
Proof.
  apply (init_then_get_bearer_token "https://oauth2.example/token" "id" "secret"
           "B0" "R0" "google_auth.json" Scenario.with_cache).
  discriminate.
Defined.


(** ** Refreshing *)

(** X8: a generic refresh that gets a JSON body under a non-error status
    returns normally and stores, for each of the two keys, the response's
    value when it is present and not null, and keeps what memory held
    otherwise; it never stores a missing value. *)
Theorem generic_refresh_stores_non_null_tokens
        (self : AuthManager) (w : World) (rt : string) (d : dict) :
  sandboxed w = false ->
  _in_memory_refresh_token self = Some rt ->
  truthy (Some rt) = true ->
  let q := token_request Generic self rt in
  let r := token_server w (trace w ++ [EvRefreshCall]) q in
  ~ (400 <= status_code r < 600) ->
  json r = Some d ->
  exists s',
    AuthManager.refresh_bearer_token (self, w) = (Ok tt, s') /\
    _in_memory_bearer_token (fst s') =
      match dict_get d bearer_token_resp_key with
      | Some b => Some b
      | None => _in_memory_bearer_token self
      end /\
    _in_memory_refresh_token (fst s') =
      match dict_get d refresh_token_resp_key with
      | Some x => Some x
      | None => Some rt
      end.
Proof.
  intros Hs Hrt Ht q r Hst Hjson.
  change AuthManager.refresh_bearer_token with (refresh_bearer_token Generic).
  rewrite refresh_run. cbv zeta. rewrite Hs, Hrt, Ht. simpl py_str.
  change (token_request Generic self rt) with q.
  change (token_server w _ q) with r.
  rewrite (error_status_false r Hst), Hjson.
  match goal with
  | |- exists _, AuthManager._update_server_creds_cache ?c (?a0, ?w0) = _ /\ _ =>
      destruct (update_run c a0 w0) as (self' & w' & Hupd & Hb & Hr & _)
  end.
  exists (self', w'). split; [exact Hupd|]. simpl.
  rewrite Hb, Hr, !comprehension_lookup by auto.
  rewrite Hrt.
  destruct (dict_get d bearer_token_resp_key);
    destruct (dict_get d refresh_token_resp_key); auto.
Qed.

Lemma generic_refresh_stores_non_null_tokens_witness :
  let d : dict := {[ "access_token" := Some "A1" ]} in
  let s := Scenario.manager Generic (Scenario.reply 200 d) in
  exists s',
    AuthManager.refresh_bearer_token (fst s, snd s) = (Ok tt, s') /\
    _in_memory_bearer_token (fst s') =
      match dict_get d bearer_token_resp_key with
      | Some b => Some b
      | None => _in_memory_bearer_token (fst s)
      end /\
    _in_memory_refresh_token (fst s') =
      match dict_get d refresh_token_resp_key with
      | Some x => Some x
      | None => Some "R0"
      end.
Proof.
  apply (generic_refresh_stores_non_null_tokens
           (fst (Scenario.manager Generic
                   (Scenario.reply 200 {[ "access_token" := Some "A1" ]})))
           (snd (Scenario.manager Generic
                   (Scenario.reply 200 {[ "access_token" := Some "A1" ]})))
           "R0" {[ "access_token" := Some "A1" ]});
    [reflexivity | reflexivity | reflexivity | simpl; lia | reflexivity].
Defined.

(** X9: when the response of a Google or HubSpot refresh has no
    [access_token] key, the call raises [KeyError] and leaves the manager
    and the files as they were. *)
Theorem vendor_refresh_missing_access_token
        (v : variant) (self : AuthManager) (w : World) (rt : string) (d : dict) :
  v <> Generic ->
  sandboxed w = false ->
  _in_memory_refresh_token self = Some rt ->
  truthy (Some rt) = true ->
  let q := token_request v self rt in
  let r := token_server w (trace w ++ [EvRefreshCall]) q in
  ~ (400 <= status_code r < 600) ->
  json r = Some d ->
  d !! bearer_token_resp_key = None ->
  exists w',
    refresh_bearer_token v (self, w) = (Raise (KeyError "access_token"), (self, w')) /\
    files w' = files w.
Proof.
  intros Hv Hs Hrt Ht q r Hst Hjson Hnone.
  rewrite refresh_run. cbv zeta. rewrite Hs, Hrt, Ht. simpl py_str.
  change (token_request v self rt) with q.
  change (token_server w _ q) with r.
  rewrite (error_status_false r Hst), Hjson.
  destruct v; [contradiction| |]; rewrite Hnone; eexists; split; reflexivity.
Qed.

Lemma vendor_refresh_missing_access_token_witness :
  let d : dict := {[ "refresh_token" := Some "R1" ]} in
  let s := Scenario.manager Google (Scenario.reply 200 d) in
  d !! bearer_token_resp_key = None /\
  exists w',
    refresh_bearer_token Google (fst s, snd s)
      = (Raise (KeyError "access_token"), (fst s, w')) /\
    files w' = files (snd s).
Proof.
  split; [reflexivity|].
  apply (vendor_refresh_missing_access_token Google
           (fst (Scenario.manager Google
                   (Scenario.reply 200 {[ "refresh_token" := Some "R1" ]})))
           (snd (Scenario.manager Google
                   (Scenario.reply 200 {[ "refresh_token" := Some "R1" ]})))
           "R0" {[ "refresh_token" := Some "R1" ]});
    [discriminate | reflexivity | reflexivity | reflexivity | simpl; lia
    | reflexivity | reflexivity].
Defined.

(** X10: when the body of the token response is not JSON at all, so that
    [response.json()] raises (and the status is not an error status),
    every variant raises that [JSONDecodeError] and leaves the manager and
    the files as they were. *)
Theorem refresh_rejects_non_json_body
        (v : variant) (self : AuthManager) (w : World) (rt : string) :
  sandboxed w = false ->
  _in_memory_refresh_token self = Some rt ->
  truthy (Some rt) = true ->
  let q := token_request v self rt in
  let r := token_server w (trace w ++ [EvRefreshCall]) q in
  ~ (400 <= status_code r < 600) ->
  json r = None ->
  exists w',
    refresh_bearer_token v (self, w) = (Raise JSONDecodeError, (self, w')) /\
    files w' = files w.
Proof.
  intros Hs Hrt Ht q r Hst Hjson.
  rewrite refresh_run. cbv zeta. rewrite Hs, Hrt, Ht. simpl py_str.
  change (token_request v self rt) with q.
  change (token_server w _ q) with r.
  rewrite (error_status_false r Hst), Hjson.
  eexists; split; reflexivity.
Qed.

Lemma refresh_rejects_non_json_body_witness :
  let s := Scenario.manager HubSpot (mkResponse 200 None "<html>") in
  exists w',
    refresh_bearer_token HubSpot (fst s, snd s) = (Raise JSONDecodeError, (fst s, w')) /\
    files w' = files (snd s).
Proof.
  apply (refresh_rejects_non_json_body HubSpot
           (fst (Scenario.manager HubSpot (mkResponse 200 None "<html>")))
           (snd (Scenario.manager HubSpot (mkResponse 200 None "<html>"))) "R0");
    [reflexivity | reflexivity | reflexivity | simpl; lia | reflexivity].
Defined.

(** X11: a refresh of any variant that raises, whatever the exception,
    leaves the manager (both tokens), the files and the output untouched:
    there is no partial update. *)
Theorem refresh_failure_is_atomic
        (v : variant) (self : AuthManager) (w : World) (e : exn)
        (s' : AuthManager * World) :
  refresh_bearer_token v (self, w) = (Raise e, s') ->
  fst s' = self /\ files (snd s') = files w /\ stdout (snd s') = stdout w.
Proof.
  rewrite refresh_run. cbv zeta.
  destruct (sandboxed w); [discriminate|].
  destruct (truthy (_in_memory_refresh_token self)); [|intros [= <- <-]; auto].
  match goal with
  | |- context [EvTokenPost ?q ?r] => generalize r; intros r0
  end.
  destruct ((400 <=? status_code r0) && (status_code r0 <? 600));
    [intros [= <- <-]; auto|].
  destruct (json r0) as [d|]; [|intros [= <- <-]; auto].
  assert (Hno : forall c s0, AuthManager._update_server_creds_cache c s0 = (Raise e, s') -> False).
  { intros c s0 H. pose proof (update_returns c s0) as Hok. rewrite H in Hok. discriminate. }
  destruct v; [intros H; destruct (Hno _ _ H)| |];
    (destruct (d !! bearer_token_resp_key);
     [intros H; destruct (Hno _ _ H) | intros [= <- <-]; auto]).
Qed.

Lemma refresh_failure_is_atomic_witness :
  let s := Scenario.manager Google (Scenario.reply 200 {[ "refresh_token" := Some "R1" ]}) in
  let out := refresh_bearer_token Google (fst s, snd s) in
  fst out = Raise (KeyError "access_token") /\
  fst (snd out) = fst s /\ files (snd (snd out)) = files (snd s) /\
  stdout (snd (snd out)) = stdout (snd s).
Proof.
  split; [vm_compute; reflexivity|].
  apply (refresh_failure_is_atomic Google _ _ (KeyError "access_token")).
  vm_compute. reflexivity.
Defined.

(** X12: whatever its outcome, a refresh of any variant adds to the
    trace its entry mark and at most one token request; when it posts,
    it is outside the sandbox, the store holds a non-empty refresh token,
    and the request is the variant's request for exactly that token. *)
Theorem refresh_posts_stored_token_at_most_once
        (v : variant) (self : AuthManager) (w : World)
        (res : result unit) (s' : AuthManager * World) :
  refresh_bearer_token v (self, w) = (res, s') ->
  trace (snd s') = trace w ++ [EvRefreshCall] \/
  exists rt r,
    sandboxed w = false /\
    _in_memory_refresh_token self = Some rt /\
    rt <> "" /\
    trace (snd s') = trace w ++ [EvRefreshCall; EvTokenPost (token_request v self rt) r].
Proof.
  rewrite refresh_run. cbv zeta.
  destruct (sandboxed w); [intros [= <- <-]; auto|].
  destruct (_in_memory_refresh_token self) as [[|a rt]|] eqn:Hrt; simpl truthy; cbv iota;
    try (intros [= <- <-]; auto; fail).
  simpl py_str.
  set (q := token_request v self (String a rt)).
  set (r := token_server w _ q).
  intros Hrun. right. exists (String a rt), r.
  split; [reflexivity|]. split; [reflexivity|]. split; [discriminate|].
  assert (Hw2 : forall c,
            trace (snd (snd (AuthManager._update_server_creds_cache c
              (self, set_trace (trace (set_trace (trace w ++ [EvRefreshCall]) w)
                                  ++ [EvTokenPost q r])
                               (set_trace (trace w ++ [EvRefreshCall]) w)))))
            = trace w ++ [EvRefreshCall; EvTokenPost q r]).
  { intros c. rewrite update_keeps_trace. simpl. rewrite <- app_assoc. reflexivity. }
  revert Hrun.
  destruct ((400 <=? status_code r) && (status_code r <? 600));
    [intros [= <- <-]; simpl; rewrite <- app_assoc; reflexivity|].
  destruct (json r) as [d|];
    [|intros [= <- <-]; simpl; rewrite <- app_assoc; reflexivity].
  destruct v; [| |];
    try (destruct (d !! bearer_token_resp_key);
         [|intros [= <- <-]; simpl; rewrite <- app_assoc; reflexivity]);
    intros Hrun;
    match type of Hrun with
    | AuthManager._update_server_creds_cache ?c _ = _ =>
        specialize (Hw2 c); rewrite Hrun in Hw2; exact Hw2
    end.
Qed.

Lemma refresh_posts_stored_token_at_most_once_witness :
  let s := Scenario.manager Generic (Scenario.reply 503 ∅) in
  let out := refresh_bearer_token Generic (fst s, snd s) in
  trace (snd (snd out)) = trace (snd s) ++ [EvRefreshCall] \/
  exists rt r,
    sandboxed (snd s) = false /\
    _in_memory_refresh_token (fst s) = Some rt /\
    rt <> "" /\
    trace (snd (snd out)) =
      trace (snd s) ++ [EvRefreshCall; EvTokenPost (token_request Generic (fst s) rt) r].
Proof.
  apply (refresh_posts_stored_token_at_most_once Generic _ _
           (Raise (HTTPError 503))).
  vm_compute. reflexivity.
Defined.

(** X13: no refresh, of any variant and with any outcome, changes the
    token URL, the client id, the client secret, the cache path or the
    writability flag of the manager. *)
Theorem refresh_preserves_configuration
        (v : variant) (self : AuthManager) (w : World) :
  same_configuration (fst (snd (refresh_bearer_token v (self, w)))) self.
Proof.
  assert (Hrefl : same_configuration self self) by (unfold same_configuration; tauto).
  rewrite refresh_run. cbv zeta.
  destruct (sandboxed w); [exact Hrefl|].
  destruct (truthy (_in_memory_refresh_token self)); [|exact Hrefl].
  match goal with
  | |- context [EvTokenPost ?q ?r] => generalize r; intros r0
  end.
  destruct ((400 <=? status_code r0) && (status_code r0 <? 600)); [exact Hrefl|].
  destruct (json r0) as [d|]; [|exact Hrefl].
  destruct v; [| |];
    try (destruct (d !! bearer_token_resp_key); [|exact Hrefl]);
    apply update_keeps_configuration.
Qed.


(** ** The client *)

Lemma py_str_truthy (v : option string) : truthy v = true -> py_str v <> "".
Proof. destruct v as [[|c s]|]; simpl; congruence. Qed.

(** The loop, for any number of rounds and any outcome. *)
Lemma reauth_loop_trace (n : nat) (method url : string)
      (params : option (gmap string string)) (pl : payload) :
  forall (resp0 : option Response) (c : GoogleClient) (w : World)
         (res : result (option Response)) (s' : GoogleClient * World),
    GoogleClient.reauth_loop n method url params pl resp0 (c, w) = (res, s') ->
    exists tr,
      trace (snd s') = trace w ++ tr /\
      (length (api_calls tr) <= n)%nat /\
      (refresh_calls tr <= length (api_calls tr))%nat /\
      Forall (fun qr => reauth_request method url params pl (fst qr)) (api_calls tr) /\
      base_url (fst s') = base_url c /\
      (forall r, res = Ok (Some r) ->
                 match last (api_calls tr) with
                 | Some (_, r') => r' = r
                 | None => resp0 = Some r
                 end).
Proof.
  induction n as [|n IH]; intros resp0 c w res s' Hrun.
  - simpl in Hrun. unfold ret in Hrun. inversion Hrun; subst; clear Hrun.
    exists []. simpl. rewrite app_nil_r.
    repeat split; auto. intros r [= ->]. reflexivity.
  - rewrite reauth_loop_step in Hrun. cbv zeta in Hrun.
    destruct (truthy (_in_memory_bearer_token (auth_manager c))) eqn:Ht.
    2:{ inversion Hrun; subst; clear Hrun. exists []. simpl. rewrite app_nil_r.
        repeat split; auto; try lia. intros r [=]. }
    set (token := py_str (_in_memory_bearer_token (auth_manager c))) in *.
    set (q := api_request method url params pl _) in *.
    set (r1 := api_server w (trace w) q) in *.
    assert (Hq : reauth_request method url params pl q).
    { exists token, (client_headers c). split; [apply py_str_truthy; exact Ht|].
      reflexivity. }
    destruct (status_code r1 =? UNAUTHORIZED).
    + destruct (GoogleAuthManager.refresh_bearer_token _) as [[[]|e] [a2 w2]] eqn:Href;
        destruct (google_refresh_trace _ _ _ _ Href) as (tr1 & Htr1 & Hn1 & Ha1 & _);
        simpl in Htr1.
      * destruct (IH _ _ _ _ _ Hrun) as (tr2 & Htr2 & Hlen & Hrc & Hall & Hbase & Hlast).
        exists ([EvApi q r1] ++ tr1 ++ tr2).
        rewrite !api_calls_app, !refresh_calls_app, Ha1, Hn1. simpl.
        split; [rewrite Htr2, Htr1, <- !app_assoc; reflexivity|].
        split; [lia|]. split; [lia|].
        split; [constructor; assumption|].
        split; [exact Hbase|].
        intros r Hres. specialize (Hlast r Hres).
        destruct (api_calls tr2) as [|qr rest] eqn:Hcalls.
        -- simpl in *. congruence.
        -- simpl app. rewrite last_cons_cons.
           destruct (last (qr :: rest)) as [[q' r']|] eqn:Hl; [exact Hlast|].
           apply last_None in Hl. discriminate.
      * inversion Hrun; subst; clear Hrun. simpl.
        exists ([EvApi q r1] ++ tr1).
        rewrite !api_calls_app, !refresh_calls_app, Ha1, Hn1. simpl.
        split; [rewrite Htr1, <- !app_assoc; reflexivity|].
        split; [lia|]. split; [lia|].
        split; [constructor; [assumption | constructor]|].
        split; [reflexivity|]. intros r [=].
    + inversion Hrun; subst; clear Hrun. simpl.
      exists [EvApi q r1]. simpl.
      split; [reflexivity|]. split; [lia|]. split; [lia|].
      split; [constructor; [assumption | constructor]|].
      split; [reflexivity|]. intros r [= ->]. reflexivity.
Qed.

Lemma request_with_reauth_trace (method url : string)
      (params : option (gmap string string)) (pl : payload)
      (c : GoogleClient) (w : World) (res : result Response)
      (s' : GoogleClient * World) :
  GoogleClient._request_with_reauth method url params pl (c, w) = (res, s') ->
  exists tr,
    trace (snd s') = trace w ++ tr /\
    (length (api_calls tr) <= 2)%nat /\
    (refresh_calls tr <= length (api_calls tr))%nat /\
    Forall (fun qr => reauth_request method url params pl (fst qr)) (api_calls tr) /\
    base_url (fst s') = base_url c /\
    (forall r, res = Ok r -> last_api_response tr = Some r).
Proof.
  unfold GoogleClient._request_with_reauth, bind. intros Hrun.
  destruct (GoogleClient.reauth_loop 2 method url params pl None (c, w))
    as [lres s1] eqn:Hloop.
  destruct (reauth_loop_trace _ _ _ _ _ _ _ _ _ _ Hloop)
    as (tr & Htr & Hlen & Hrc & Hall & Hbase & Hlast).
  destruct lres as [[r0|]|e]; unfold ret, raise in Hrun;
    inversion Hrun; subst; clear Hrun;
    exists tr; repeat (split; [assumption|]); intros r [=]; subst.
  specialize (Hlast r eq_refl). unfold last_api_response.
  destruct (last (api_calls tr)) as [[q' r']|]; [subst; reflexivity | discriminate].
Qed.

(** X14: whatever its outcome, one [_request_with_reauth] call issues at
    most two API requests and no more refreshes than API requests, and
    every API request it issues is the caller's request under an
    [Authorization] header with a non-empty bearer token. *)
Theorem request_with_reauth_is_bounded (method url : string)
      (params : option (gmap string string)) (pl : payload)
      (c : GoogleClient) (w : World) :
  exists tr,
    trace (snd (snd (GoogleClient._request_with_reauth method url params pl (c, w))))
      = trace w ++ tr /\
    (length (api_calls tr) <= 2)%nat /\
    (refresh_calls tr <= length (api_calls tr))%nat /\
    Forall (fun qr => reauth_request method url params pl (fst qr)) (api_calls tr).
Proof.
  destruct (GoogleClient._request_with_reauth method url params pl (c, w))
    as [res s'] eqn:Hrun.
  destruct (request_with_reauth_trace _ _ _ _ _ _ _ _ Hrun)
    as (tr & Htr & Hlen & Hrc & Hall & _).
  exists tr. auto.
Qed.

(** A request method: the request, the status check, then [k]. *)
Lemma checked_request_returns {A} (method url : string)
      (params : option (gmap string string)) (pl : payload)
      (k : Response -> CM A) (c : GoogleClient) (w : World) (v : A)
      (s' : GoogleClient * World) :
  (let* response := GoogleClient._request_with_reauth method url params pl in
   raise_for_status response;; k response) (c, w) = (Ok v, s') ->
  exists tr r s1,
    trace (snd s1) = trace w ++ tr /\
    last_api_response tr = Some r /\
    ~ (400 <= status_code r < 600) /\
    k r s1 = (Ok v, s').
Proof.
  unfold bind at 1. intros Hrun.
  destruct (GoogleClient._request_with_reauth method url params pl (c, w))
    as [[r|e] s1] eqn:Hreq; [|discriminate].
  destruct (request_with_reauth_trace _ _ _ _ _ _ _ _ Hreq)
    as (tr & Htr & _ & _ & _ & _ & Hlast).
  exists tr, r, s1. split; [exact Htr|]. split; [apply Hlast; reflexivity|].
  unfold raise_for_status, bind, raise, ret in Hrun.
  destruct ((400 <=? status_code r) && (status_code r <? 600)) eqn:He;
    [discriminate|].
  split; [|exact Hrun].
  intros Hst. rewrite (error_status_true r Hst) in He. discriminate.
Qed.

(** X15: a request method that returns normally has received, as its
    last API response, one whose status is not a client or server error
    (so never a 401), and returns that response's status code
    ([delete_request]), parsed body ([patch_request], [put_request],
    [post_request], [get_request]) or the response itself ([get_request]
    with [content]). *)
Theorem request_methods_never_return_error_status
        (entity service version : string) (params : option (gmap string string))
        (pl : payload) (content : bool) (c : GoogleClient) (w : World)
        (s' : GoogleClient * World) :
  (forall code,
     delete_request entity service params pl version (c, w) = (Ok code, s') ->
     exists tr r, trace (snd s') = trace w ++ tr /\ last_api_response tr = Some r /\
                  ~ (400 <= status_code r < 600) /\ code = status_code r) /\
  (forall d,
     patch_request entity service params pl version (c, w) = (Ok d, s') \/
     put_request entity service params pl version (c, w) = (Ok d, s') \/
     post_request entity service params pl version (c, w) = (Ok d, s') ->
     exists tr r, trace (snd s') = trace w ++ tr /\ last_api_response tr = Some r /\
                  ~ (400 <= status_code r < 600) /\ json r = Some d) /\
  (forall g,
     get_request entity service params content version (c, w) = (Ok g, s') ->
     exists tr r, trace (snd s') = trace w ++ tr /\ last_api_response tr = Some r /\
                  ~ (400 <= status_code r < 600) /\
                  if content then g = TextAndHeaders r
                  else exists d, json r = Some d /\ g = JsonBody d).
Proof.
  assert (Hjson : forall (r : Response) (s1 : GoogleClient * World) d,
            @response_json GoogleClient r s1 = (Ok d, s') ->
            s1 = s' /\ json r = Some d).
  { intros r s1 d. unfold response_json, ret, raise.
    destruct (json r); [intros [= -> ->]; auto | discriminate]. }
  split; [|split].
  - intros code Hrun. unfold delete_request in Hrun.
    unfold bind at 1 in Hrun. unfold gets in Hrun. simpl in Hrun.
    destruct (checked_request_returns _ _ _ _ _ _ _ _ _ Hrun)
      as (tr & r & s1 & Htr & Hlast & Hok & Hk).
    unfold ret in Hk. inversion Hk; subst.
    exists tr, r. auto.
  - intros d Hrun.
    assert (Hverb : forall verb,
              (let* response :=
                 GoogleClient._request_with_reauth verb
                   (entity_url (base_url c) service version entity) params pl in
               raise_for_status response;; response_json response) (c, w)
              = (Ok d, s') ->
              exists tr r, trace (snd s') = trace w ++ tr /\
                           last_api_response tr = Some r /\
                           ~ (400 <= status_code r < 600) /\ json r = Some d).
    { intros verb Hb.
      destruct (checked_request_returns _ _ _ _ _ _ _ _ _ Hb)
        as (tr & r & s1 & Htr & Hlast & Hok & Hk).
      destruct (Hjson _ _ _ Hk) as [-> Hd]. exists tr, r. auto. }
    destruct Hrun as [H | [H | H]]; [apply (Hverb "PATCH") | apply (Hverb "PUT") |
                                     apply (Hverb "POST")]; exact H.
  - intros g Hrun. unfold get_request in Hrun.
    unfold bind at 1 in Hrun. unfold gets in Hrun. simpl in Hrun.
    destruct (checked_request_returns _ _ _ _ _ _ _ _ _ Hrun)
      as (tr & r & s1 & Htr & Hlast & Hok & Hk).
    destruct content.
    + unfold ret in Hk. inversion Hk; subst. exists tr, r. auto.
    + unfold bind, ret in Hk.
      destruct (response_json r s1) as [[d|e] s2] eqn:Hr; [|discriminate].
      inversion Hk; subst.
      destruct (Hjson _ _ _ Hr) as [-> Hd].
      exists tr, r. repeat (split; [assumption|]). exists d. auto.
Qed.

Lemma request_methods_never_return_error_status_witness :
  let s := Scenario.expired_once in
  let out := delete_request "files/f1" "drive" None PayloadNone "v3" (fst s, snd s) in
  fst out = Ok 200 /\
  exists tr r,
    trace (snd (snd out)) = trace (snd s) ++ tr /\
    last_api_response tr = Some r /\
    ~ (400 <= status_code r < 600) /\ 200 = status_code r.
Proof.
  split; [vm_compute; reflexivity|].
  destruct (request_methods_never_return_error_status "files/f1" "drive" "v3" None
              PayloadNone false (fst Scenario.expired_once) (snd Scenario.expired_once)
              (snd (delete_request "files/f1" "drive" None PayloadNone "v3"
                      (fst Scenario.expired_once, snd Scenario.expired_once))))
    as [Hdelete _].
  apply Hdelete. vm_compute. reflexivity.
Defined.

(** X16: when the first API response is 401 and the token endpoint
    answers the refresh with a client or server error status,
    [_request_with_reauth] raises the [HTTPError] of the token endpoint:
    the 401 response is not returned, no second API request is made, and
    the manager and the files stay as they were. *)
Theorem reauth_propagates_refresh_failure
        (method url : string) (params : option (gmap string string)) (pl : payload)
        (c : GoogleClient) (w : World) (rt : string) :
  truthy (_in_memory_bearer_token (auth_manager c)) = true ->
  sandboxed w = false ->
  _in_memory_refresh_token (auth_manager c) = Some rt ->
  truthy (Some rt) = true ->
  let token := py_str (_in_memory_bearer_token (auth_manager c)) in
  let q1 := api_request method url params pl
              (<["Authorization" := ("Bearer " ++ token)%string]> (client_headers c)) in
  let r1 := api_server w (trace w) q1 in
  let tq := token_request Google (auth_manager c) rt in
  let tr := token_server w (trace w ++ [EvApi q1 r1; EvRefreshCall]) tq in
  status_code r1 = UNAUTHORIZED ->
  400 <= status_code tr < 600 ->
  exists s',
    GoogleClient._request_with_reauth method url params pl (c, w)
      = (Raise (HTTPError (status_code tr)), s') /\
    trace (snd s') = trace w ++ [EvApi q1 r1; EvRefreshCall; EvTokenPost tq tr] /\
    auth_manager (fst s') = auth_manager c /\
    files (snd s') = files w.
Proof.
  intros Hb Hs Hrt Ht token q1 r1 tq tr H401 Herr.
  unfold GoogleClient._request_with_reauth, bind.
  rewrite reauth_loop_step. cbv zeta. rewrite Hb.
  change (api_request method url params pl _) with q1.
  change (api_server w (trace w) q1) with r1.
  rewrite H401. simpl (401 =? UNAUTHORIZED).  cbv iota.
  rewrite google_refresh_run. cbv zeta.
  change (sandboxed (set_trace (trace w ++ [EvApi q1 r1]) w)) with (sandboxed w).
  rewrite Hs, Hrt, Ht. simpl py_str.
  change (token_request Google (auth_manager c) rt) with tq.
  simpl trace. simpl token_server. rewrite <- app_assoc. simpl app.
  change (token_server w (trace w ++ [EvApi q1 r1; EvRefreshCall]) tq) with tr.
  rewrite (error_status_true tr Herr).
  eexists. split; [reflexivity|]. simpl.
  split; [rewrite <- !app_assoc; reflexivity|]. split; reflexivity.
Qed.

Lemma reauth_propagates_refresh_failure_witness :
  let s := Cases.revoked in
  exists s',
    GoogleClient._request_with_reauth "GET" Scenario.files_url None PayloadNone
      (fst s, snd s) = (Raise (HTTPError 400), s') /\
    length (api_calls (trace (snd s'))) = 1%nat /\
    auth_manager (fst s') = auth_manager (fst s).
Proof.
  destruct (reauth_propagates_refresh_failure "GET" Scenario.files_url None PayloadNone
              (fst Cases.revoked) (snd Cases.revoked) "R0")
    as (s' & Hrun & Htr & Ham & _);
    [reflexivity | reflexivity | reflexivity | reflexivity | reflexivity
    | simpl; lia |].
  exists s'. split; [exact Hrun|]. split; [rewrite Htr; reflexivity | exact Ham].
Defined.


(** ** Credential helpers *)

(** X17: with a non-empty sub-category that names an object, the merged
    credentials hold every entry of that object and, for the other keys,
    the entries of the system whose value is a string; entries of the
    sub-category win, and the other sub-categories are left out. *)
Theorem merge_subcategory_overrides
        (system_creds extra : gmap string jval) (sub : string) :
  sub <> "" ->
  system_creds !! sub = Some (JObj extra) ->
  exists merged,
    _merge_base_and_subcategory system_creds (Some sub) = Value merged /\
    forall k,
      merged !! k =
        match extra !! k with
        | Some v => Some v
        | None =>
            match system_creds !! k with
            | Some (JStr s) => Some (JStr s)
            | _ => None
            end
        end.
Proof.
  intros Hne Hsub. unfold _merge_base_and_subcategory.
  destruct sub as [|c sub]; [contradiction|]. simpl truthy. cbv iota.
  rewrite Hsub. eexists. split; [reflexivity|].
  intros k. rewrite lookup_union.
  destruct (extra !! k) as [v|] eqn:Hk.
  - rewrite union_Some_l. reflexivity.
  - rewrite (left_id None _).
    destruct (system_creds !! k) as [v|] eqn:Hv.
    + destruct (is_str v) eqn:Hs.
      * destruct v; try discriminate.
        apply map_lookup_filter_Some. split; [exact Hv | reflexivity].
      * assert (filter (fun kv : string * jval => is_str (snd kv) = true)
                       system_creds !! k = None) as ->.
        { apply map_lookup_filter_None. right. intros v' Hv'. simpl.
          rewrite Hv in Hv'. injection Hv' as <-. congruence. }
        destruct v; try reflexivity. discriminate.
    + assert (filter (fun kv : string * jval => is_str (snd kv) = true)
                     system_creds !! k = None) as ->.
      { apply map_lookup_filter_None. left. exact Hv. }
      reflexivity.
Qed.

Lemma merge_subcategory_overrides_witness :
  exists merged,
    _merge_base_and_subcategory Cases.ariba_creds (Some "BUYER") = Value merged /\
    merged !! "realm" = Some (JStr "buyer-realm") /\
    merged !! "base_url" = Some (JStr "https://ariba.example") /\
    merged !! "api_key" = Some (JStr "k1") /\
    merged !! "SUPPLIER" = None.
Proof.
  destruct (merge_subcategory_overrides Cases.ariba_creds
              (<["realm" := JStr "buyer-realm"]> {[ "api_key" := JStr "k1" ]}) "BUYER")
    as (merged & Hrun & Hk); [discriminate | reflexivity |].
  exists merged. split; [exact Hrun|].
  repeat split; rewrite Hk; vm_compute; reflexivity.
Defined.

(** X18: without a sub-category, or with the empty one, the credentials
    of the system are returned as they are; a sub-category that the
    system lacks raises [KeyError], and one that names a string raises
    [TypeError]. *)
Theorem merge_subcategory_edge_cases
        (system_creds : gmap string jval) (sub : string) :
  _merge_base_and_subcategory system_creds None = Value system_creds /\
  _merge_base_and_subcategory system_creds (Some "") = Value system_creds /\
  (sub <> "" -> system_creds !! sub = None ->
   _merge_base_and_subcategory system_creds (Some sub) = Failure (CredKeyError sub)) /\
  (sub <> "" ->
   forall s, system_creds !! sub = Some (JStr s) ->
   _merge_base_and_subcategory system_creds (Some sub) = Failure CredTypeError).
Proof.
  split; [reflexivity|]. split; [reflexivity|].
  split; intros Hne; (destruct sub as [|c sub]; [contradiction|]).
  - intros Hn. unfold _merge_base_and_subcategory. simpl truthy. cbv iota.
    rewrite Hn. reflexivity.
  - intros s Hs. unfold _merge_base_and_subcategory. simpl truthy. cbv iota.
    rewrite Hs. reflexivity.
Qed.

Lemma split_on_parts_free (sep : ascii) (s : string) :
  Forall (fun part => free_of sep part = true) (split_on sep s).
Proof.
  induction s as [|c s IH]; simpl.
  - constructor; [reflexivity | constructor].
  - destruct (Ascii.eqb c sep) eqn:Hc.
    + constructor; [reflexivity | exact IH].
    + destruct (split_on sep s) as [|p ps]; [repeat constructor|].
      * rewrite free_of_cons, Ascii.eqb_sym, Hc. reflexivity.
      * inversion IH; subst. constructor; [|assumption].
        rewrite free_of_cons, Ascii.eqb_sym, Hc. assumption.
Qed.

Lemma join_split (sep : ascii) (s : string) : join_with sep (split_on sep s) = s.
Proof.
  induction s as [|c s IH]; [reflexivity|]. simpl.
  pose proof (split_on_nonempty sep s) as Hne.
  destruct (Ascii.eqb c sep) eqn:Hc.
  - apply Ascii.eqb_eq in Hc. subst c.
    destruct (split_on sep s) as [|p ps]; [contradiction|].
    change (join_with sep ("" :: p :: ps))
      with (String sep (join_with sep (p :: ps))).
    rewrite IH. reflexivity.
  - destruct (split_on sep s) as [|p ps]; [contradiction|].
    destruct ps as [|p' ps]; simpl in *; rewrite <- IH; reflexivity.
Qed.

Lemma string_app_assoc (a b c : string) :
  ((a ++ b) ++ c)%string = (a ++ (b ++ c))%string.
Proof.
  induction a as [|x a IH]; [reflexivity|].
  change (String x ((a ++ b) ++ c) = String x (a ++ b ++ c))%string.
  rewrite IH. reflexivity.
Qed.

Lemma join_snoc2 (sep : ascii) (front : list string) (a b : string) :
  exists pre,
    join_with sep (front ++ [a; b]) = (pre ++ a ++ String sep b)%string /\
    (pre = EmptyString \/ exists p, pre = (p ++ String sep EmptyString)%string).
Proof.
  induction front as [|x front IH].
  - exists EmptyString. split; [reflexivity | left; reflexivity].
  - destruct IH as (pre & Hj & Hpre).
    exists (x ++ String sep pre)%string. split.
    + change (join_with sep ((x :: front) ++ [a; b]))
        with (join_with sep (x :: (front ++ [a; b]))).
      destruct (front ++ [a; b]) as [|y ys] eqn:Hf.
      { destruct front; discriminate. }
      change (join_with sep (x :: y :: ys))
        with (x ++ String sep (join_with sep (y :: ys)))%string.
      rewrite Hj. rewrite string_app_assoc. reflexivity.
    + right. destruct Hpre as [-> | (p & ->)].
      * exists x. reflexivity.
      * exists (x ++ String sep p)%string. rewrite string_app_assoc. reflexivity.
Qed.

Lemma from_end_snoc2 (front : list string) (a b : string) :
  from_end (front ++ [a; b]) 1 = Some b /\
  from_end (front ++ [a; b]) 2 = Some a /\
  (1 <? length (front ++ [a; b]))%nat = true.
Proof.
  unfold from_end. rewrite length_app.
  change (length [a; b]) with 2%nat.
  split; [|split].
  - rewrite lookup_app_r by lia.
    replace (length front + 2 - 1 - length front)%nat with 1%nat by lia. reflexivity.
  - rewrite lookup_app_r by lia.
    replace (length front + 2 - 2 - length front)%nat with 0%nat by lia. reflexivity.
  - apply Nat.ltb_lt. lia.
Qed.

Lemma tenant_from_parts (server_url app_id tenant : string) (front : list string) :
  split_on "/" server_url = front ++ ["ccx"; tenant] ->
  tenant <> "" ->
  _get_workday_tenant_from_url server_url app_id = Value tenant.
Proof.
  intros Hsplit Hne. unfold _get_workday_tenant_from_url. rewrite Hsplit.
  destruct (from_end_snoc2 front "ccx" tenant) as (H1 & H2 & Hlen).
  rewrite H1, H2, Hlen.
  destruct (front ++ ["ccx"; tenant]) eqn:Hp.
  { destruct front; discriminate. }
  destruct tenant; [contradiction | reflexivity].
Qed.

Lemma workday_tenant_run (base tenant app_id : string) :
  tenant <> "" ->
  free_of "/" tenant = true ->
  _get_workday_tenant_from_url (base ++ "/ccx/" ++ tenant) app_id = Value tenant.
Proof.
  intros Hne Hfree. apply (tenant_from_parts _ _ _ (split_on "/" base)); [|exact Hne].
  change (base ++ "/ccx/" ++ tenant)%string
    with (base ++ String "/" ("ccx" ++ String "/" tenant))%string.
  rewrite split_on_app, (split_on_app "/" "ccx" tenant), (split_on_free _ _ Hfree).
  reflexivity.
Qed.

Lemma workday_tenant_inv (server_url app_id tenant : string) :
  _get_workday_tenant_from_url server_url app_id = Value tenant ->
  tenant <> "" /\
  free_of "/" tenant = true /\
  exists pre,
    server_url = (pre ++ "ccx/" ++ tenant)%string /\
    (pre = "" \/ exists p, pre = (p ++ "/")%string).
Proof.
  unfold _get_workday_tenant_from_url.
  pose proof (join_split "/" server_url) as Hjoin.
  pose proof (split_on_parts_free "/" server_url) as Hfree.
  destruct (split_on "/" server_url) as [|p0 ps0] eqn:Hsplit; [discriminate|].
  set (parts := p0 :: ps0) in *. clearbody parts. clear p0 ps0.
  unfold from_end.
  destruct (parts !! (length parts - 1)%nat) as [t|] eqn:H1; [|discriminate].
  destruct (parts !! (length parts - 2)%nat) as [m|] eqn:H2; [|discriminate].
  destruct (1 <? length parts)%nat eqn:Hlen; [|discriminate].
  destruct (truthy (Some t)) eqn:Ht; [|discriminate].
  case_bool_decide as Hm; [|discriminate]. simpl. intros [= ->]. subst m.
  apply Nat.ltb_lt in Hlen.
  assert (Hparts : exists front, parts = front ++ ["ccx"; tenant]).
  { exists (take (length parts - 2) parts).
    rewrite <- (take_drop (length parts - 2) parts) at 1. f_equal.
    apply list_eq. intros i. rewrite lookup_drop.
    destruct i as [|[|i]]; simpl.
    - rewrite Nat.add_0_r. exact H2.
    - replace (length parts - 2 + 1)%nat with (length parts - 1)%nat by lia. exact H1.
    - apply lookup_ge_None. lia. }
  destruct Hparts as (front & ->).
  split; [apply truthy_cons; exact Ht|].
  split.
  - apply Forall_app in Hfree as [_ Hf]. inversion Hf as [|? ? _ Hf']; subst.
    inversion Hf'; subst. assumption.
  - destruct (join_snoc2 "/" front "ccx" tenant) as (pre & Hj & Hpre).
    exists pre. split; [rewrite <- Hjoin, Hj; reflexivity | exact Hpre].
Qed.

(** X19: [_get_workday_tenant_from_url] returns a tenant exactly when the
    URL is ["ccx/<tenant>"], alone or after a prefix that ends in a slash,
    with a tenant that is not empty and holds no slash; otherwise an
    assertion fails. *)
Theorem workday_tenant_iff_ccx_path (server_url app_id tenant : string) :
  _get_workday_tenant_from_url server_url app_id = Value tenant <->
  tenant <> "" /\
  free_of "/" tenant = true /\
  exists pre,
    server_url = (pre ++ "ccx/" ++ tenant)%string /\
    (pre = "" \/ exists p, pre = (p ++ "/")%string).
Proof.
  split; [apply workday_tenant_inv|].
  intros (Hne & Hfree & pre & -> & [-> | (p & ->)]).
  - apply (tenant_from_parts _ _ _ []); [|exact Hne].
    change ("" ++ "ccx/" ++ tenant)%string with ("ccx" ++ String "/" tenant)%string.
    rewrite split_on_app, (split_on_free _ _ Hfree). reflexivity.
  - rewrite string_app_assoc. apply workday_tenant_run; assumption.
Qed.

Lemma accepted_test (v : option string) :
  negb (truthy v) || bool_decide (v = Some "None") = false <-> accepted v.
Proof.
  unfold accepted. split.
  - intros [Ht Hn]%orb_false_iff. apply negb_false_iff in Ht.
    apply bool_decide_eq_false in Hn.
    destruct v as [s|]; [|discriminate]. exists s.
    split; [reflexivity|]. split; [apply truthy_cons; exact Ht | congruence].
  - intros (s & -> & Hne & Hnone). apply orb_false_iff. split.
    + destruct s; [contradiction | reflexivity].
    + apply bool_decide_eq_false. congruence.
Qed.

(** X20: when the loop over a key-value connection succeeds, every entry
    of the result was there before or is an item whose value is neither
    empty nor [None] nor the string "None"; every non-empty entry that was
    there before is unchanged; and every such item is in the result. *)
Theorem key_value_merge_result (items : list (string * option string)) :
  forall merged merged',
    merge_key_value items merged = Value merged' ->
    (forall k v, merged' !! k = Some v ->
                 merged !! k = Some v \/ (In (k, v) items /\ accepted v)) /\
    (forall k x, merged !! k = Some (Some x) -> x <> "" ->
                 merged' !! k = Some (Some x)) /\
    (forall k v, In (k, v) items -> accepted v -> merged' !! k = Some v).
Proof.
  induction items as [|[key new_value] rest IH]; intros merged merged' Hrun.
  - simpl in Hrun. injection Hrun as <-.
    split; [auto|]. split; [auto|]. intros k v [].
  - simpl in Hrun.
    destruct (negb (truthy new_value) || bool_decide (new_value = Some "None"))
      eqn:Hskip.
    + destruct (IH _ _ Hrun) as (Hfrom & Hkeep & Hstore).
      split; [|split].
      * intros k v Hk. destruct (Hfrom k v Hk) as [|[Hin Hacc]]; [auto|].
        right. split; [right; exact Hin | exact Hacc].
      * exact Hkeep.
      * intros k v [[= <- <-]|Hin] Hacc; [|eauto].
        apply accepted_test in Hacc. congruence.
    + apply accepted_test in Hskip. destruct Hskip as (s & -> & Hs & Hnone).
      destruct (truthy (dict_get merged key)
                && negb (bool_decide (dict_get merged key = Some s))) eqn:Hconf;
        [discriminate|].
      destruct (IH _ _ Hrun) as (Hfrom & Hkeep & Hstore).
      assert (Hacc : accepted (Some s)) by (exists s; auto).
      assert (Hkey : merged' !! key = Some (Some s)).
      { apply Hkeep; [apply lookup_insert_eq | exact Hs]. }
      split; [|split].
      * intros k v Hk. destruct (Hfrom k v Hk) as [Hm|[Hin Hacc']].
        -- destruct (decide (key = k)) as [->|Hne].
           ++ rewrite lookup_insert_eq in Hm. injection Hm as <-.
              right. split; [left; reflexivity | exact Hacc].
           ++ rewrite lookup_insert_ne in Hm by exact Hne. auto.
        -- right. split; [right; exact Hin | exact Hacc'].
      * intros k x Hk Hx. apply Hkeep; [|exact Hx].
        destruct (decide (key = k)) as [->|Hne].
        -- rewrite lookup_insert_eq. f_equal.
           apply andb_false_iff in Hconf. unfold dict_get in Hconf. rewrite Hk in Hconf.
           destruct Hconf as [Hc|Hc].
           ++ destruct x; [contradiction | discriminate].
           ++ apply negb_false_iff, bool_decide_eq_true in Hc. congruence.
        -- rewrite lookup_insert_ne by exact Hne. exact Hk.
      * intros k v [[= <- <-]|Hin] Hacc'; [exact Hkey | eauto].
Qed.

Lemma key_value_merge_result_witness :
  exists merged',
    merge_key_value Cases.google_items ∅ = Value merged' /\
    merged' !! "client_id" = Some (Some "id") /\
    (forall k v, merged' !! k = Some v -> In (k, v) Cases.google_items /\ accepted v).
Proof.
  destruct (merge_key_value Cases.google_items ∅) as [merged'|e] eqn:Hrun;
    [|vm_compute in Hrun; discriminate].
  exists merged'. split; [reflexivity|].
  destruct (key_value_merge_result _ _ _ Hrun) as (Hfrom & _ & Hstore).
  split.
  - apply Hstore; [right; left; reflexivity|].
    exists "id". repeat split; discriminate.
  - intros k v Hk.
    destruct (Hfrom k v Hk) as [Hempty | Hitem]; [|exact Hitem].
    rewrite lookup_empty in Hempty. discriminate.
Defined.

(** X21: when the dictionary already holds a non-empty value under a key
    and a key-value connection brings a different value for it (not empty
    and not "None"), the loop raises [ValueError]. *)
Theorem key_value_conflict_raises
        (items : list (string * option string)) (key old new : string) :
  old <> "" ->
  In (key, Some new) items ->
  new <> "" -> new <> "None" ->
  old <> new ->
  forall merged,
    merged !! key = Some (Some old) ->
    merge_key_value items merged = Failure ValueError.
Proof.
  intros Hne Hin Hnew Hnone Hdiff.
  assert (Hacc : accepted (Some new)) by (exists new; auto).
  induction items as [|[k v] rest IH]; intros merged Hold; [destruct Hin|].
  simpl.
  destruct (negb (truthy v) || bool_decide (v = Some "None")) eqn:Hskip.
  - destruct Hin as [[= -> ->]|Hin]; [|auto].
    apply accepted_test in Hacc. congruence.
  - destruct (decide (k = key)) as [->|Hk].
    + unfold dict_get. rewrite Hold.
      replace (truthy (Some old)) with true by (destruct old; [contradiction | reflexivity]).
      simpl. destruct (bool_decide (Some old = v)) eqn:Heq; [|reflexivity].
      apply bool_decide_eq_true in Heq. simpl. subst v.
      destruct Hin as [[= ->]|Hin]; [contradiction|].
      apply IH; [exact Hin|]. apply lookup_insert_eq.
    + destruct Hin as [[= -> ->]|Hin]; [contradiction|].
      destruct (truthy (dict_get merged k) && negb (bool_decide (dict_get merged k = v)));
        [reflexivity|].
      apply IH; [exact Hin|]. rewrite lookup_insert_ne by exact Hk. exact Hold.
Qed.

Lemma key_value_conflict_raises_witness :
  merge_key_value [("region", None); ("base_url", Some "https://b.example")]
                  {[ "base_url" := Some "https://a.example" ]}
  = Failure ValueError.
Proof.
  apply (key_value_conflict_raises _ "base_url" "https://a.example" "https://b.example");
    [discriminate | right; left; reflexivity | discriminate | discriminate
    | discriminate | reflexivity].
Defined.

Lemma string_length_app (a b : string) :
  String.length (a ++ b)%string = (String.length a + String.length b)%nat.
Proof.
  induction a as [|c a IH]; [reflexivity|].
  change (S (String.length (a ++ b)%string) = S (String.length a + String.length b)).
  rewrite IH. reflexivity.
Qed.

Lemma removesuffix_app (a b : string) : removesuffix (a ++ b) b = a.
Proof.
  induction a as [|c a IH].
  - change ("" ++ b)%string with b.
    destruct b as [|x b]; [reflexivity|].
    unfold removesuffix. rewrite String.eqb_refl. reflexivity.
  - change (String c a ++ b)%string with (String c (a ++ b)%string).
    change (removesuffix (String c (a ++ b)%string) b)
      with (if String.eqb (String c (a ++ b)%string) b then EmptyString
            else String c (removesuffix (a ++ b) b)).
    destruct (String.eqb_spec (String c (a ++ b)%string) b) as [Heq|Hne].
    + apply (f_equal String.length) in Heq. simpl in Heq.
      rewrite string_length_app in Heq. lia.
    + rewrite IH. reflexivity.
Qed.

Lemma url_with_path_is_a_value (base rest : string) :
  is_none_conn_value (Some (base ++ String "/" rest)%string) = false /\
  truthy (Some (base ++ String "/" rest)%string) = true.
Proof.
  split.
  - simpl. apply orb_false_iff.
    split; apply bool_decide_eq_false;
      destruct base as [|? [|? [|? [|? [|? ?]]]]]; discriminate.
  - destruct base; reflexivity.
Qed.

(** X22: for Workday with its OAuth connection at
    [<base>/ccx/<tenant>], the merged credentials hold the access token as
    bearer token, the tenant as tenant name, and [<base>/ccx] as base
    URL. *)
Theorem workday_connection_yields_tenant
        (app_id base tenant : string) (access_token : option string) :
  str_contains "workday_oauth2_auth_code" app_id = true ->
  tenant <> "" ->
  free_of "/" tenant = true ->
  exists creds,
    sdk_credentials true
      [OAuth2AuthCode app_id access_token (Some (base ++ "/ccx/" ++ tenant)%string)]
      = Value creds /\
    creds !! CredentialKeys.BEARER_TOKEN = Some access_token /\
    creds !! CredentialKeys.TENANT_NAME = Some (Some tenant) /\
    creds !! CredentialKeys.BASE_URL = Some (Some (base ++ "/ccx")%string).
Proof.
  intros Happ Hne Hfree.
  set (url := (base ++ "/ccx/" ++ tenant)%string).
  destruct (url_with_path_is_a_value base ("ccx/" ++ tenant)) as [Hval Htruthy].
  change (base ++ String "/" ("ccx/" ++ tenant))%string with url in Hval, Htruthy.
  unfold sdk_credentials, merge_connections, merge_connection, default_base_url.
  rewrite Hval. simpl negb. cbv iota.
  change (is_none_conn_value (dict_get (<[CredentialKeys.BEARER_TOKEN := access_token]> ∅)
                                        CredentialKeys.BASE_URL)) with true.
  cbv iota. unfold workday_tenant, connection_app_id.
  rewrite Happ.
  assert (Hget : dict_get (<[CredentialKeys.BASE_URL := Some url]>
                             (<[CredentialKeys.BEARER_TOKEN := access_token]> ∅))
                          CredentialKeys.BASE_URL = Some url).
  { unfold dict_get. rewrite lookup_insert_eq. reflexivity. }
  rewrite Hget, Htruthy. simpl py_str. simpl andb. cbv iota.
  unfold url at 1. rewrite (workday_tenant_run base tenant app_id Hne Hfree).
  eexists. split; [reflexivity|].
  split; [|split].
  - rewrite !lookup_insert_ne by discriminate. apply lookup_insert_eq.
  - rewrite lookup_insert_ne by discriminate. apply lookup_insert_eq.
  - rewrite lookup_insert_eq. do 2 f_equal.
    unfold url.
    replace (base ++ "/ccx/" ++ tenant)%string
      with ((base ++ "/ccx") ++ ("/" ++ tenant))%string
      by (rewrite string_app_assoc; reflexivity).
    apply removesuffix_app.
Qed.

Lemma workday_connection_yields_tenant_witness :
  exists creds,
    sdk_credentials true
      [OAuth2AuthCode "workday_oauth2_auth_code_ibm_184bdbd3" (Some "T0")
         (Some "https://wd2-impl-services1.workday.com/ccx/acme")]
      = Value creds /\
    creds !! CredentialKeys.BEARER_TOKEN = Some (Some "T0") /\
    creds !! CredentialKeys.TENANT_NAME = Some (Some "acme") /\
    creds !! CredentialKeys.BASE_URL
      = Some (Some "https://wd2-impl-services1.workday.com/ccx").
Proof.
  apply (workday_connection_yields_tenant "workday_oauth2_auth_code_ibm_184bdbd3"
           "https://wd2-impl-services1.workday.com" "acme" (Some "T0"));
    [reflexivity | discriminate | reflexivity].
Defined.

(** X23: for a system other than Workday, a connection with URL [u]
    followed by a key-value connection whose [base_url] is a different
    [v] raises [ValueError], while the same two connections in the other
    order give the credentials with [base_url] [v]. *)
Theorem base_url_conflict_depends_on_order
        (app1 app2 u v : string) (username password : option string) :
  u <> "" -> u <> "None" -> v <> "" -> v <> "None" -> u <> v ->
  sdk_credentials false
    [BasicAuth app1 username password (Some u);
     KeyValue app2 [(CredentialKeys.BASE_URL, Some v)]]
    = Failure ValueError /\
  exists creds,
    sdk_credentials false
      [KeyValue app2 [(CredentialKeys.BASE_URL, Some v)];
       BasicAuth app1 username password (Some u)]
      = Value creds /\
    creds !! CredentialKeys.BASE_URL = Some (Some v).
Proof.
  intros Hu Hun Hv Hvn Huv.
  assert (Hnone : forall x, x <> "" -> x <> "None" -> is_none_conn_value (Some x) = false).
  { intros x Hx Hxn. simpl. apply orb_false_iff.
    split; apply bool_decide_eq_false; assumption. }
  assert (Htruthy : forall x, x <> "" -> truthy (Some x) = true).
  { intros x Hx. destruct x; [contradiction | reflexivity]. }
  assert (Hskip : negb (truthy (Some v)) || bool_decide (Some v = Some "None") = false).
  { apply accepted_test. exists v. auto. }
  split.
  - unfold sdk_credentials, merge_connections, merge_connection, default_base_url,
           workday_tenant.
    rewrite (Hnone u Hu Hun). simpl negb. cbv iota.
    change (is_none_conn_value
              (dict_get (<[CredentialKeys.PASSWORD := password]>
                           (<[CredentialKeys.USERNAME := username]> ∅))
                        CredentialKeys.BASE_URL)) with true.
    cbv iota. simpl andb. cbv iota.
    unfold merge_key_value. rewrite Hskip.
    assert (Hget : dict_get (<[CredentialKeys.BASE_URL := Some u]>
                               (<[CredentialKeys.PASSWORD := password]>
                                  (<[CredentialKeys.USERNAME := username]> ∅)))
                            CredentialKeys.BASE_URL = Some u).
    { unfold dict_get. rewrite lookup_insert_eq. reflexivity. }
    rewrite Hget, (Htruthy u Hu).
    replace (bool_decide (Some u = Some v)) with false
      by (symmetry; apply bool_decide_eq_false; congruence).
    reflexivity.
  - unfold sdk_credentials, merge_connections, merge_connection, default_base_url,
           workday_tenant.
    unfold merge_key_value. rewrite Hskip.
    change (truthy (dict_get ∅ CredentialKeys.BASE_URL)) with false.
    simpl andb. cbv iota.
    rewrite (Hnone u Hu Hun). simpl negb. cbv iota.
    assert (Hget : dict_get (<[CredentialKeys.PASSWORD := password]>
                               (<[CredentialKeys.USERNAME := username]>
                                  (<[CredentialKeys.BASE_URL := Some v]> ∅)))
                            CredentialKeys.BASE_URL = Some v).
    { unfold dict_get. rewrite !lookup_insert_ne by discriminate.
      rewrite lookup_insert_eq. reflexivity. }
    rewrite Hget, (Hnone v Hv Hvn).
    eexists. split; [reflexivity|].
    rewrite !lookup_insert_ne by discriminate. apply lookup_insert_eq.
Qed.

Lemma base_url_conflict_depends_on_order_witness :
  sdk_credentials false
    [BasicAuth "jira_basic" (Some "me") (Some "pw") (Some "https://a.example");
     KeyValue "jira_key_value" [(CredentialKeys.BASE_URL, Some "https://b.example")]]
    = Failure ValueError /\
  exists creds,
    sdk_credentials false
      [KeyValue "jira_key_value" [(CredentialKeys.BASE_URL, Some "https://b.example")];
       BasicAuth "jira_basic" (Some "me") (Some "pw") (Some "https://a.example")]
      = Value creds /\
    creds !! CredentialKeys.BASE_URL = Some (Some "https://b.example").
Proof.
  apply (base_url_conflict_depends_on_order "jira_basic" "jira_key_value"
           "https://a.example" "https://b.example" (Some "me") (Some "pw"));
    discriminate.
Defined.
